(** * The apply pipeline of the etcd server: [uberApplier]

    A shallow embedding of [server/etcdserver/uber_applier.go].

    The file is organised as follows.
    - [Pb]: the protobuf enumerations and messages the dispatcher inspects.
    - [Externals]: the collaborators that live outside the file (storage,
      alarm registry, loggers, metrics), kept abstract.
    - The applier chain, the [uberApplier] record, the machine state and the
      state monad in which the Go methods are written.
    - [RestoreAlarms], [Alarm], [dispatch], [Apply], [newUberApplier].
    - [Demo]: a small in-memory instance on which the definitions run.
    - The properties of the dispatcher and of the chain builder. *)

From Stdlib Require Import List String Bool Arith ZArith.
Import ListNotations.
Local Open Scope string_scope.
Local Open Scope list_scope.

Set Implicit Arguments.

(** ** Protobuf side *)

Module Pb.

(** [pb.AlarmType]. *)
Inductive AlarmType := AlarmType_NONE | AlarmType_NOSPACE | AlarmType_CORRUPT.

(** [pb.AlarmRequest_AlarmAction]. *)
Inductive AlarmAction :=
  AlarmRequest_GET | AlarmRequest_ACTIVATE | AlarmRequest_DEACTIVATE.

Definition AlarmType_eqb (x y : AlarmType) : bool :=
  match x, y with
  | AlarmType_NONE, AlarmType_NONE
  | AlarmType_NOSPACE, AlarmType_NOSPACE
  | AlarmType_CORRUPT, AlarmType_CORRUPT => true
  | _, _ => false
  end.

Definition AlarmAction_eqb (x y : AlarmAction) : bool :=
  match x, y with
  | AlarmRequest_GET, AlarmRequest_GET
  | AlarmRequest_ACTIVATE, AlarmRequest_ACTIVATE
  | AlarmRequest_DEACTIVATE, AlarmRequest_DEACTIVATE => true
  | _, _ => false
  end.

(** [pb.AlarmMember]: one raised alarm, as the registry lists it. *)
Record AlarmMember := { am_MemberID : N; am_Alarm : AlarmType }.

(** [pb.AlarmRequest]. *)
Record AlarmRequest :=
  { Action : AlarmAction; MemberID : N; Alarm : AlarmType }.

End Pb.
Export Pb.

(** ** Errors

    A Go [error] is compared by identity.  [mvcc.ErrCompacted] is the one
    sentinel the dispatcher looks for; every other error value is told apart
    by a name. *)
Inductive error :=
| ErrCompacted
| ErrOther (name : string).

Definition error_eqb (x y : error) : bool :=
  match x, y with
  | ErrCompacted, ErrCompacted => true
  | ErrOther a, ErrOther b => String.eqb a b
  | _, _ => false
  end.

(** [time.Duration], in nanoseconds. *)
Definition Duration := Z.

(** [strconv.FormatBool]. *)
Definition strconv_FormatBool (b : bool) : string :=
  if b then "true" else "false".

(** How a Go call leaves: with its result, or unwinding a panic. *)
Inductive exit (A : Type) :=
| Return (x : A)
| Panic (msg : string).
Arguments Panic {A} msg.

(** ** Collaborators outside the file

    Everything the dispatcher touches but does not define: the payload of a
    protobuf message, the handles the server holds, the mutable state of the
    storage, lease, auth and alarm subsystems ([World]), the version tag of
    the metric and the read-only listing the alarm registry offers. *)
Class Externals : Type :=
  { World : Type;
    Message : Type;          (* proto.Message *)
    Trace : Type;            (* pointer to traceutil.Trace *)
    Chan : Type;             (* <-chan struct{} *)
    context_Context : Type;  (* context.Context *)
    context_TODO : context_Context;
    Logger : Type;           (* pointer to zap.Logger *)
    AlarmStore : Type;       (* pointer to v3alarm.AlarmStore *)
    AuthStore : Type;        (* auth.AuthStore *)
    Lessor : Type;           (* lease.Lessor *)
    v3Version : string;
    (** [AlarmStore.Get]: the alarms of one kind that are raised. *)
    alarmStore_Get : AlarmStore -> World -> AlarmType -> list AlarmMember }.

Section Applier.

Context `{Ext : Externals}.

(** [EtcdServer], reduced to the fields this file reads. *)
Record EtcdServer :=
  { lg : Logger;
    alarmStore : AlarmStore;
    Cfg_WarningApplyDuration : Duration;
    authStore : AuthStore;       (* s.AuthStore() *)
    lessor : Lessor }.

(** [pb.InternalRaftRequest]: one pointer per variant, [None] for nil.
    Nothing in the type keeps two of them from being set at once. *)
Record InternalRaftRequest :=
  { Range : option Message;
    Put : option Message;
    DeleteRange : option Message;
    Txn : option Message;
    Compaction : option Message;
    LeaseGrant : option Message;
    LeaseRevoke : option Message;
    LeaseCheckpoint : option Message;
    Alarm_ : option AlarmRequest;
    Authenticate : option Message;
    AuthEnable : option Message;
    AuthDisable : option Message;
    AuthStatus : option Message;
    AuthUserAdd : option Message;
    AuthUserDelete : option Message;
    AuthUserChangePassword : option Message;
    AuthUserGrantRole : option Message;
    AuthUserGet : option Message;
    AuthUserRevokeRole : option Message;
    AuthRoleAdd : option Message;
    AuthRoleGrantPermission : option Message;
    AuthRoleGet : option Message;
    AuthRoleRevokePermission : option Message;
    AuthRoleDelete : option Message;
    AuthUserList : option Message;
    AuthRoleList : option Message;
    ClusterVersionSet : option Message;
    ClusterMemberAttrSet : option Message;
    DowngradeInfoSet : option Message }.

(** [&pb.InternalRaftRequest{}]: no variant set. *)
Definition request_zero : InternalRaftRequest :=
  {| Range := None; Put := None; DeleteRange := None; Txn := None;
     Compaction := None; LeaseGrant := None; LeaseRevoke := None;
     LeaseCheckpoint := None; Alarm_ := None; Authenticate := None;
     AuthEnable := None; AuthDisable := None; AuthStatus := None;
     AuthUserAdd := None; AuthUserDelete := None;
     AuthUserChangePassword := None; AuthUserGrantRole := None;
     AuthUserGet := None; AuthUserRevokeRole := None; AuthRoleAdd := None;
     AuthRoleGrantPermission := None; AuthRoleGet := None;
     AuthRoleRevokePermission := None; AuthRoleDelete := None;
     AuthUserList := None; AuthRoleList := None; ClusterVersionSet := None;
     ClusterMemberAttrSet := None; DowngradeInfoSet := None |}.

(** [r.Put = q]. *)
Definition with_Put (q : Message) (r : InternalRaftRequest)
  : InternalRaftRequest :=
  {| Range := Range r; Put := Some q; DeleteRange := DeleteRange r;
     Txn := Txn r; Compaction := Compaction r; LeaseGrant := LeaseGrant r;
     LeaseRevoke := LeaseRevoke r; LeaseCheckpoint := LeaseCheckpoint r;
     Alarm_ := Alarm_ r; Authenticate := Authenticate r;
     AuthEnable := AuthEnable r; AuthDisable := AuthDisable r;
     AuthStatus := AuthStatus r; AuthUserAdd := AuthUserAdd r;
     AuthUserDelete := AuthUserDelete r;
     AuthUserChangePassword := AuthUserChangePassword r;
     AuthUserGrantRole := AuthUserGrantRole r;
     AuthUserGet := AuthUserGet r;
     AuthUserRevokeRole := AuthUserRevokeRole r;
     AuthRoleAdd := AuthRoleAdd r;
     AuthRoleGrantPermission := AuthRoleGrantPermission r;
     AuthRoleGet := AuthRoleGet r;
     AuthRoleRevokePermission := AuthRoleRevokePermission r;
     AuthRoleDelete := AuthRoleDelete r; AuthUserList := AuthUserList r;
     AuthRoleList := AuthRoleList r;
     ClusterVersionSet := ClusterVersionSet r;
     ClusterMemberAttrSet := ClusterMemberAttrSet r;
     DowngradeInfoSet := DowngradeInfoSet r |}.

(** [r.Compaction = q]. *)
Definition with_Compaction (q : Message) (r : InternalRaftRequest)
  : InternalRaftRequest :=
  {| Range := Range r; Put := Put r; DeleteRange := DeleteRange r;
     Txn := Txn r; Compaction := Some q; LeaseGrant := LeaseGrant r;
     LeaseRevoke := LeaseRevoke r; LeaseCheckpoint := LeaseCheckpoint r;
     Alarm_ := Alarm_ r; Authenticate := Authenticate r;
     AuthEnable := AuthEnable r; AuthDisable := AuthDisable r;
     AuthStatus := AuthStatus r; AuthUserAdd := AuthUserAdd r;
     AuthUserDelete := AuthUserDelete r;
     AuthUserChangePassword := AuthUserChangePassword r;
     AuthUserGrantRole := AuthUserGrantRole r;
     AuthUserGet := AuthUserGet r;
     AuthUserRevokeRole := AuthUserRevokeRole r;
     AuthRoleAdd := AuthRoleAdd r;
     AuthRoleGrantPermission := AuthRoleGrantPermission r;
     AuthRoleGet := AuthRoleGet r;
     AuthRoleRevokePermission := AuthRoleRevokePermission r;
     AuthRoleDelete := AuthRoleDelete r; AuthUserList := AuthUserList r;
     AuthRoleList := AuthRoleList r;
     ClusterVersionSet := ClusterVersionSet r;
     ClusterMemberAttrSet := ClusterMemberAttrSet r;
     DowngradeInfoSet := DowngradeInfoSet r |}.

(** [r.Alarm = q]. *)
Definition with_Alarm (q : AlarmRequest) (r : InternalRaftRequest)
  : InternalRaftRequest :=
  {| Range := Range r; Put := Put r; DeleteRange := DeleteRange r;
     Txn := Txn r; Compaction := Compaction r; LeaseGrant := LeaseGrant r;
     LeaseRevoke := LeaseRevoke r; LeaseCheckpoint := LeaseCheckpoint r;
     Alarm_ := Some q; Authenticate := Authenticate r;
     AuthEnable := AuthEnable r; AuthDisable := AuthDisable r;
     AuthStatus := AuthStatus r; AuthUserAdd := AuthUserAdd r;
     AuthUserDelete := AuthUserDelete r;
     AuthUserChangePassword := AuthUserChangePassword r;
     AuthUserGrantRole := AuthUserGrantRole r;
     AuthUserGet := AuthUserGet r;
     AuthUserRevokeRole := AuthUserRevokeRole r;
     AuthRoleAdd := AuthRoleAdd r;
     AuthRoleGrantPermission := AuthRoleGrantPermission r;
     AuthRoleGet := AuthRoleGet r;
     AuthRoleRevokePermission := AuthRoleRevokePermission r;
     AuthRoleDelete := AuthRoleDelete r; AuthUserList := AuthUserList r;
     AuthRoleList := AuthRoleList r;
     ClusterVersionSet := ClusterVersionSet r;
     ClusterMemberAttrSet := ClusterMemberAttrSet r;
     DowngradeInfoSet := DowngradeInfoSet r |}.

(** [r.AuthStatus = q]. *)
Definition with_AuthStatus (q : Message) (r : InternalRaftRequest)
  : InternalRaftRequest :=
  {| Range := Range r; Put := Put r; DeleteRange := DeleteRange r;
     Txn := Txn r; Compaction := Compaction r; LeaseGrant := LeaseGrant r;
     LeaseRevoke := LeaseRevoke r; LeaseCheckpoint := LeaseCheckpoint r;
     Alarm_ := Alarm_ r; Authenticate := Authenticate r;
     AuthEnable := AuthEnable r; AuthDisable := AuthDisable r;
     AuthStatus := Some q; AuthUserAdd := AuthUserAdd r;
     AuthUserDelete := AuthUserDelete r;
     AuthUserChangePassword := AuthUserChangePassword r;
     AuthUserGrantRole := AuthUserGrantRole r;
     AuthUserGet := AuthUserGet r;
     AuthUserRevokeRole := AuthUserRevokeRole r;
     AuthRoleAdd := AuthRoleAdd r;
     AuthRoleGrantPermission := AuthRoleGrantPermission r;
     AuthRoleGet := AuthRoleGet r;
     AuthRoleRevokePermission := AuthRoleRevokePermission r;
     AuthRoleDelete := AuthRoleDelete r; AuthUserList := AuthUserList r;
     AuthRoleList := AuthRoleList r;
     ClusterVersionSet := ClusterVersionSet r;
     ClusterMemberAttrSet := ClusterMemberAttrSet r;
     DowngradeInfoSet := DowngradeInfoSet r |}.

(** [r.ClusterVersionSet = q]. *)
Definition with_ClusterVersionSet (q : Message) (r : InternalRaftRequest)
  : InternalRaftRequest :=
  {| Range := Range r; Put := Put r; DeleteRange := DeleteRange r;
     Txn := Txn r; Compaction := Compaction r; LeaseGrant := LeaseGrant r;
     LeaseRevoke := LeaseRevoke r; LeaseCheckpoint := LeaseCheckpoint r;
     Alarm_ := Alarm_ r; Authenticate := Authenticate r;
     AuthEnable := AuthEnable r; AuthDisable := AuthDisable r;
     AuthStatus := AuthStatus r; AuthUserAdd := AuthUserAdd r;
     AuthUserDelete := AuthUserDelete r;
     AuthUserChangePassword := AuthUserChangePassword r;
     AuthUserGrantRole := AuthUserGrantRole r;
     AuthUserGet := AuthUserGet r;
     AuthUserRevokeRole := AuthUserRevokeRole r;
     AuthRoleAdd := AuthRoleAdd r;
     AuthRoleGrantPermission := AuthRoleGrantPermission r;
     AuthRoleGet := AuthRoleGet r;
     AuthRoleRevokePermission := AuthRoleRevokePermission r;
     AuthRoleDelete := AuthRoleDelete r; AuthUserList := AuthUserList r;
     AuthRoleList := AuthRoleList r; ClusterVersionSet := Some q;
     ClusterMemberAttrSet := ClusterMemberAttrSet r;
     DowngradeInfoSet := DowngradeInfoSet r |}.

(** [applyResult]. *)
Record applyResult :=
  { resp : option Message;
    err : option error;
    physc : option Chan;
    trace : option Trace }.

(** [&applyResult{}]. *)
Definition applyResult_zero : applyResult :=
  {| resp := None; err := None; physc := None; trace := None |}.

(** *** The applier chain *)

(** [applierV3backend]. *)
Record applierV3backend := { s : EtcdServer }.

(** Modelled from the spec: the structs that implement [applierV3] are
    declared in sibling files; each decorator holds exactly one inner
    applier and the chain ends in the backend executor
    (spec 4.3: every decorator is constructed wrapping exactly one inner
    component).  The constructors keep the arguments the calls in this
    file pass. *)
Inductive applierV3 :=
| BackendApplier (b : applierV3backend)
| quotaApplierV3 (srv : EtcdServer) (app : applierV3)
| authApplierV3 (as_ : AuthStore) (base : applierV3) (lessor_ : Lessor)
| applierV3Capped (base : applierV3)
| applierV3Corrupt (a : applierV3).

(** [applierV3Internal]: the interface of the three cluster-control
    methods; the only implementation this file builds is the backend. *)
Inductive applierV3Internal :=
| InternalApplier (b : applierV3backend).

Definition newApplierV3Backend (srv : EtcdServer) : applierV3 :=
  BackendApplier {| s := srv |}.

Definition newApplierV3Internal (srv : EtcdServer) : applierV3Internal :=
  let base := {| s := srv |} in
  InternalApplier base.

Definition newQuotaApplierV3 (srv : EtcdServer) (app : applierV3) : applierV3 :=
  quotaApplierV3 srv app.

Definition newAuthApplierV3 (as_ : AuthStore) (base : applierV3) (l : Lessor)
  : applierV3 :=
  authApplierV3 as_ base l.

Definition newApplierV3Capped (base : applierV3) : applierV3 :=
  applierV3Capped base.

Definition newApplierV3Corrupt (a : applierV3) : applierV3 :=
  applierV3Corrupt a.

Definition newApplierV3 (srv : EtcdServer) : applierV3 :=
  newAuthApplierV3
    (authStore srv)
    (newQuotaApplierV3 srv (newApplierV3Backend srv))
    (lessor srv).

(** [uberApplier]. *)
Record uberApplier :=
  { ua_lg : Logger;
    ua_alarmStore : AlarmStore;
    warningApplyDuration : Duration;
    applyV3 : applierV3;
    applyV3base : applierV3;
    applyV3Internal : applierV3Internal }.

Definition set_applyV3 (a : uberApplier) (c : applierV3) : uberApplier :=
  {| ua_lg := ua_lg a;
     ua_alarmStore := ua_alarmStore a;
     warningApplyDuration := warningApplyDuration a;
     applyV3 := c;
     applyV3base := applyV3base a;
     applyV3Internal := applyV3Internal a |}.

(** *** Method calls

    One constructor per method of [applierV3] the dispatcher calls, with
    the arguments it passes (the transaction argument of [Range], [Put]
    and [DeleteRange] is always nil and is left out). *)
Inductive call :=
| Call_Range (ctx : context_Context) (r : Message)
| Call_Put (ctx : context_Context) (r : Message)
| Call_DeleteRange (r : Message)
| Call_Txn (ctx : context_Context) (r : Message)
| Call_Compaction (r : Message)
| Call_LeaseGrant (r : Message)
| Call_LeaseRevoke (r : Message)
| Call_LeaseCheckpoint (r : Message)
| Call_Alarm (ar : AlarmRequest)
| Call_Authenticate (r : Message)
| Call_AuthEnable
| Call_AuthDisable
| Call_AuthStatus
| Call_UserAdd (r : Message)
| Call_UserDelete (r : Message)
| Call_UserChangePassword (r : Message)
| Call_UserGrantRole (r : Message)
| Call_UserGet (r : Message)
| Call_UserRevokeRole (r : Message)
| Call_RoleAdd (r : Message)
| Call_RoleGrantPermission (r : Message)
| Call_RoleGet (r : Message)
| Call_RoleRevokePermission (r : Message)
| Call_RoleDelete (r : Message)
| Call_UserList (r : Message)
| Call_RoleList (r : Message).

(** The methods of [applierV3Internal], with the [shouldApplyV3] flag
    they receive. *)
Inductive icall :=
| ICall_ClusterVersionSet (r : Message) (shouldApplyV3 : bool)
| ICall_ClusterMemberAttrSet (r : Message) (shouldApplyV3 : bool)
| ICall_DowngradeInfoSet (r : Message) (shouldApplyV3 : bool).

(** What a chain method hands back.  A method that has no trace or no
    completion signal in its Go signature leaves those fields unused: the
    dispatcher copies only the results its assignment names. *)
Record reply :=
  { reply_resp : option Message;
    reply_physc : option Chan;
    reply_trace : option Trace;
    reply_err : option error }.

(** *** Observable effects *)
Inductive event :=
| EvInternal (recv : applierV3Internal) (c : icall)
| EvChain (recv : applierV3) (c : call)
| EvObserve (version op success : string)
| EvWarnOfExpensiveRequest (l : Logger) (threshold : Duration)
    (r : InternalRaftRequest) (rsp : option Message) (e : option error)
| EvWarnOfFailedRequest (l : Logger)
    (r : InternalRaftRequest) (rsp : option Message) (e : option error)
| EvLogPanic (l : Logger) (msg : string) (r : InternalRaftRequest).

(** The state a method of [uberApplier] runs in: the receiver's fields,
    the world behind the collaborators, and the effects so far (oldest
    first). *)
Record machine :=
  { m_ua : uberApplier;
    m_world : World;
    m_log : list event }.

Definition M (A : Type) : Type := machine -> A * machine.

Definition ret {A} (x : A) : M A := fun m => (x, m).

Definition bind {A B} (c : M A) (k : A -> M B) : M B :=
  fun m => let (x, m') := c m in k x m'.

(** [applyFunc]. *)
Definition applyFunc : Type :=
  context_Context -> InternalRaftRequest -> bool ->
  M (exit (option applyResult)).

End Applier.

Declare Scope go_scope.
Delimit Scope go_scope with go.
Notation "x <- c ;; k" := (bind c (fun x => k))
  (at level 61, c at next level, right associativity) : go_scope.
Notation "c ;; k" := (bind c (fun _ => k))
  (at level 61, right associativity) : go_scope.

Local Open Scope go_scope.

(** ** Behaviour of the appliers

    The bodies of the chain's methods are in sibling files.  They act on
    the world only: the fields of [uberApplier] are private to this file and
    written nowhere but in [newUberApplier] and [RestoreAlarms].
    [WrapApply] alone is given in the monad, because it receives [dispatch]
    as its apply function. *)
Class Appliers `{Ext : Externals} : Type :=
  { applierV3_invoke : applierV3 -> call -> World -> reply * World;
    applierV3Internal_invoke : applierV3Internal -> icall -> World -> World;
    applierV3_WrapApply :
      applierV3 -> context_Context -> InternalRaftRequest -> bool ->
      applyFunc ->
      M (exit (option applyResult)) }.

Section Uber.

Context `{App : Appliers}.

(** *** Primitive steps *)

(** The receiver [a]. *)
Definition this : M uberApplier := fun m => (m_ua m, m).

(** [a.applyV3 = c]. *)
Definition store_applyV3 (c : applierV3) : M unit :=
  fun m => (tt, {| m_ua := set_applyV3 (m_ua m) c;
                   m_world := m_world m;
                   m_log := m_log m |}).

Definition emit (e : event) : M unit :=
  fun m => (tt, {| m_ua := m_ua m;
                   m_world := m_world m;
                   m_log := m_log m ++ [e] |}).

(** A call of a method of the chain [recv]. *)
Definition invoke (recv : applierV3) (c : call) : M reply :=
  fun m =>
    let out := applierV3_invoke recv c (m_world m) in
    (fst out, {| m_ua := m_ua m;
                 m_world := snd out;
                 m_log := m_log m ++ [EvChain recv c] |}).

(** A call of a method of the internal applier [recv]. *)
Definition invoke_internal (recv : applierV3Internal) (c : icall) : M unit :=
  fun m =>
    (tt, {| m_ua := m_ua m;
            m_world := applierV3Internal_invoke recv c (m_world m);
            m_log := m_log m ++ [EvInternal recv c] |}).

(** [a.alarmStore.Get(at)]. *)
Definition alarmStore_get (at_ : AlarmType) : M (list AlarmMember) :=
  fun m => (alarmStore_Get (ua_alarmStore (m_ua m)) (m_world m) at_, m).

(** *** [RestoreAlarms] *)
Definition RestoreAlarms : M unit :=
  ns <- alarmStore_get AlarmType_NOSPACE ;;
  let noSpaceAlarms := (0 <? List.length ns)%nat in
  cs <- alarmStore_get AlarmType_CORRUPT ;;
  let corruptAlarms := (0 <? List.length cs)%nat in
  a <- this ;;
  store_applyV3 (applyV3base a) ;;
  (if noSpaceAlarms
   then a <- this ;; store_applyV3 (newApplierV3Capped (applyV3 a))
   else ret tt) ;;
  (if corruptAlarms
   then a <- this ;; store_applyV3 (newApplierV3Corrupt (applyV3 a))
   else ret tt).

(** *** [newUberApplier], started on the world [w] with an empty log *)
Definition newUberApplier (srv : EtcdServer) (w : World) : machine :=
  let applyV3base_ := newApplierV3 srv in
  let ua :=
    {| ua_lg := lg srv;
       ua_alarmStore := alarmStore srv;
       warningApplyDuration := Cfg_WarningApplyDuration srv;
       applyV3 := applyV3base_;
       applyV3base := applyV3base_;
       applyV3Internal := newApplierV3Internal srv |} in
  snd (RestoreAlarms {| m_ua := ua; m_world := w; m_log := [] |}).

(** *** [Alarm] *)
Definition Alarm (ar : AlarmRequest) : M (option Message * option error) :=
  a <- this ;;
  rp <- invoke (applyV3 a) (Call_Alarm ar) ;;
  (if AlarmAction_eqb (Action ar) AlarmRequest_ACTIVATE
      || AlarmAction_eqb (Action ar) AlarmRequest_DEACTIVATE
   then RestoreAlarms
   else ret tt) ;;
  ret (reply_resp rp, reply_err rp).

(** *** [dispatch] *)

(** The two locals the deferred closure of [dispatch] captures. *)
Record frame := { op : string; ar : applyResult }.

Definition set_op (f : frame) (o : string) : frame :=
  {| op := o; ar := ar f |}.

(** [ar.resp, ar.err = ...]. *)
Definition set_resp_err (f : frame) (rsp : option Message) (e : option error)
  : frame :=
  {| op := op f;
     ar := {| resp := rsp; err := e;
              physc := physc (ar f); trace := trace (ar f) |} |}.

(** [ar.resp, ar.trace, ar.err = ...]. *)
Definition set_resp_trace_err (f : frame) (rp : reply) : frame :=
  {| op := op f;
     ar := {| resp := reply_resp rp; err := reply_err rp;
              physc := physc (ar f); trace := reply_trace rp |} |}.

(** [ar.resp, ar.physc, ar.trace, ar.err = ...]. *)
Definition set_resp_physc_trace_err (f : frame) (rp : reply) : frame :=
  {| op := op f;
     ar := {| resp := reply_resp rp; err := reply_err rp;
              physc := reply_physc rp; trace := reply_trace rp |} |}.

Definition err_is_nil (e : option error) : bool :=
  match e with None => true | Some _ => false end.

Definition err_is (e : option error) (x : error) : bool :=
  match e with Some y => error_eqb y x | None => false end.

(** [ar.err == nil || ar.err == mvcc.ErrCompacted]. *)
Definition success_of (e : option error) : bool :=
  err_is_nil e || err_is e ErrCompacted.

(** The deferred closure.  The observed value, the seconds elapsed since
    [start], is not part of the model; the labels are. *)
Definition deferred (r : InternalRaftRequest) (f : frame) : M unit :=
  a <- this ;;
  let success := success_of (err (ar f)) in
  emit (EvObserve v3Version (op f) (strconv_FormatBool success)) ;;
  emit (EvWarnOfExpensiveRequest (ua_lg a) (warningApplyDuration a) r
          (resp (ar f)) (err (ar f))) ;;
  if negb success
  then emit (EvWarnOfFailedRequest (ua_lg a) r (resp (ar f)) (err (ar f)))
  else ret tt.

Definition result : Type := frame * exit (option applyResult).

(** Falling out of the second switch into the final [return ar]. *)
Definition return_ar (f : frame) : M result :=
  ret (f, Return (Some (ar f))).

(** [ar.resp, ar.err = a.applyV3.F(...)]. *)
Definition case2 (f : frame) (c : call) : M result :=
  a <- this ;;
  rp <- invoke (applyV3 a) c ;;
  return_ar (set_resp_err f (reply_resp rp) (reply_err rp)).

(** [ar.resp, ar.trace, ar.err = a.applyV3.F(...)]. *)
Definition case3 (f : frame) (c : call) : M result :=
  a <- this ;;
  rp <- invoke (applyV3 a) c ;;
  return_ar (set_resp_trace_err f rp).

(** [ar.resp, ar.physc, ar.trace, ar.err = a.applyV3.Compaction(...)]. *)
Definition case4 (f : frame) (c : call) : M result :=
  a <- this ;;
  rp <- invoke (applyV3 a) c ;;
  return_ar (set_resp_physc_trace_err f rp).

(** [ar.resp, ar.err = a.Alarm(r.Alarm)]. *)
Definition case_alarm (f : frame) (q : AlarmRequest) : M result :=
  re <- Alarm q ;;
  return_ar (set_resp_err f (fst re) (snd re)).

(** A case of the first switch: the call, then [return ar] at once. *)
Definition case_internal (f : frame) (c : icall) : M result :=
  a <- this ;;
  invoke_internal (applyV3Internal a) c ;;
  ret (f, Return (Some (ar f))).

(** [a.lg.Panic("not implemented apply", ...)]: the logger writes the
    entry and panics. *)
Definition not_implemented (f : frame) (r : InternalRaftRequest) : M result :=
  a <- this ;;
  emit (EvLogPanic (ua_lg a) "not implemented apply" r) ;;
  ret (f, Panic "not implemented apply").

(** The second switch of [dispatch] and the [return ar] after it. *)
Definition dispatch_switch (ctx : context_Context) (r : InternalRaftRequest)
    (f : frame) : M result :=
  match Range r with
  | Some q => case2 (set_op f "Range") (Call_Range ctx q) | None =>
  match Put r with
  | Some q => case3 (set_op f "Put") (Call_Put ctx q) | None =>
  match DeleteRange r with
  | Some q => case2 (set_op f "DeleteRange") (Call_DeleteRange q) | None =>
  match Txn r with
  | Some q => case3 (set_op f "Txn") (Call_Txn ctx q) | None =>
  match Compaction r with
  | Some q => case4 (set_op f "Compaction") (Call_Compaction q) | None =>
  match LeaseGrant r with
  | Some q => case2 (set_op f "LeaseGrant") (Call_LeaseGrant q) | None =>
  match LeaseRevoke r with
  | Some q => case2 (set_op f "LeaseRevoke") (Call_LeaseRevoke q) | None =>
  match LeaseCheckpoint r with
  | Some q => case2 (set_op f "LeaseCheckpoint") (Call_LeaseCheckpoint q)
  | None =>
  match Alarm_ r with
  | Some q => case_alarm (set_op f "Alarm") q | None =>
  match Authenticate r with
  | Some q => case2 (set_op f "Authenticate") (Call_Authenticate q) | None =>
  match AuthEnable r with
  | Some _ => case2 (set_op f "AuthEnable") Call_AuthEnable | None =>
  match AuthDisable r with
  | Some _ => case2 (set_op f "AuthDisable") Call_AuthDisable | None =>
  match AuthStatus r with
  | Some _ => case2 f Call_AuthStatus | None =>
  match AuthUserAdd r with
  | Some q => case2 (set_op f "AuthUserAdd") (Call_UserAdd q) | None =>
  match AuthUserDelete r with
  | Some q => case2 (set_op f "AuthUserDelete") (Call_UserDelete q) | None =>
  match AuthUserChangePassword r with
  | Some q => case2 (set_op f "AuthUserChangePassword")
                (Call_UserChangePassword q)
  | None =>
  match AuthUserGrantRole r with
  | Some q => case2 (set_op f "AuthUserGrantRole") (Call_UserGrantRole q)
  | None =>
  match AuthUserGet r with
  | Some q => case2 (set_op f "AuthUserGet") (Call_UserGet q) | None =>
  match AuthUserRevokeRole r with
  | Some q => case2 (set_op f "AuthUserRevokeRole") (Call_UserRevokeRole q)
  | None =>
  match AuthRoleAdd r with
  | Some q => case2 (set_op f "AuthRoleAdd") (Call_RoleAdd q) | None =>
  match AuthRoleGrantPermission r with
  | Some q => case2 (set_op f "AuthRoleGrantPermission")
                (Call_RoleGrantPermission q)
  | None =>
  match AuthRoleGet r with
  | Some q => case2 (set_op f "AuthRoleGet") (Call_RoleGet q) | None =>
  match AuthRoleRevokePermission r with
  | Some q => case2 (set_op f "AuthRoleRevokePermission")
                (Call_RoleRevokePermission q)
  | None =>
  match AuthRoleDelete r with
  | Some q => case2 (set_op f "AuthRoleDelete") (Call_RoleDelete q) | None =>
  match AuthUserList r with
  | Some q => case2 (set_op f "AuthUserList") (Call_UserList q) | None =>
  match AuthRoleList r with
  | Some q => case2 (set_op f "AuthRoleList") (Call_RoleList q) | None =>
  not_implemented f r
  end end end end end end end end end end end end end
  end end end end end end end end end end end end end.

(** The body of [dispatch]: the locals at the point of leaving, and how
    the function leaves. *)
Definition dispatch_body (ctx : context_Context) (r : InternalRaftRequest)
    (shouldApplyV3 : bool) : M result :=
  let f := {| op := "unknown"; ar := applyResult_zero |} in
  match ClusterVersionSet r with
  | Some q =>
      case_internal (set_op f "ClusterVersionSet")
        (ICall_ClusterVersionSet q shouldApplyV3)
  | None =>
  match ClusterMemberAttrSet r with
  | Some q =>
      case_internal (set_op f "ClusterMemberAttrSet")
        (ICall_ClusterMemberAttrSet q shouldApplyV3)
  | None =>
  match DowngradeInfoSet r with
  | Some q =>
      case_internal (set_op f "DowngradeInfoSet")
        (ICall_DowngradeInfoSet q shouldApplyV3)
  | None =>
  if negb shouldApplyV3 then ret (f, Return None)
  else dispatch_switch ctx r f
  end end end.

(** [dispatch]: the body, then the deferred closure, which Go runs on a
    normal return and while a panic unwinds alike. *)
Definition dispatch (ctx : context_Context) (r : InternalRaftRequest)
    (shouldApplyV3 : bool) : M (exit (option applyResult)) :=
  fx <- dispatch_body ctx r shouldApplyV3 ;;
  deferred r (fst fx) ;;
  ret (snd fx).

(** *** [Apply] *)
Definition Apply (r : InternalRaftRequest) (shouldApplyV3 : bool)
  : M (exit (option applyResult)) :=
  a <- this ;;
  applierV3_WrapApply (applyV3 a) context_TODO r shouldApplyV3 dispatch.

End Uber.

(** ** A small in-memory server

    An instance of the collaborators on which the definitions above run:
    the world is the alarm registry plus two counters, the backend keeps the
    registry up to date, the lockdown decorators reject what they guard. *)
Module Demo.

Record world :=
  { w_alarms : list AlarmMember;
    w_applied : nat;     (* data and auth operations the backend ran *)
    w_cluster : nat }.   (* cluster-control operations that ran *)

#[export] Instance ext : Externals :=
  {| World := world;
     Message := string;
     Trace := unit;
     Chan := unit;
     context_Context := unit;
     context_TODO := tt;
     Logger := unit;
     AlarmStore := unit;
     AuthStore := unit;
     Lessor := unit;
     v3Version := "v3";
     alarmStore_Get := fun _ w t =>
       filter (fun x => AlarmType_eqb (am_Alarm x) t) (w_alarms w) |}.

Definition ok (rsp : string) : reply :=
  {| reply_resp := Some rsp; reply_physc := None;
     reply_trace := None; reply_err := None |}.

Definition fail (e : error) : reply :=
  {| reply_resp := None; reply_physc := None;
     reply_trace := None; reply_err := Some e |}.

Definition same_alarm (x : AlarmMember) (q : AlarmRequest) : bool :=
  N.eqb (am_MemberID x) (MemberID q)
  && AlarmType_eqb (am_Alarm x) (Pb.Alarm q).

Definition backend_alarm (q : AlarmRequest) (w : world) : world :=
  match Action q with
  | AlarmRequest_GET => w
  | AlarmRequest_ACTIVATE =>
      {| w_alarms := {| am_MemberID := MemberID q;
                        am_Alarm := Pb.Alarm q |} :: w_alarms w;
         w_applied := w_applied w; w_cluster := w_cluster w |}
  | AlarmRequest_DEACTIVATE =>
      {| w_alarms := filter (fun x => negb (same_alarm x q)) (w_alarms w);
         w_applied := w_applied w; w_cluster := w_cluster w |}
  end.

Definition ran (w : world) : world :=
  {| w_alarms := w_alarms w;
     w_applied := S (w_applied w);
     w_cluster := w_cluster w |}.

Definition backend (c : call) (w : world) : reply * world :=
  match c with
  | Call_Alarm q => (ok "alarm", backend_alarm q w)
  | Call_Compaction q =>
      if String.eqb q "stale" then (fail ErrCompacted, w)
      else (ok "compacted", ran w)
  | _ => (ok "done", ran w)
  end.

Definition mutates (c : call) : bool :=
  match c with
  | Call_Put _ _ | Call_Txn _ _ | Call_LeaseGrant _ => true
  | _ => false
  end.

Definition is_alarm (c : call) : bool :=
  match c with Call_Alarm _ => true | _ => false end.

Fixpoint run (chain : applierV3) (c : call) (w : world) : reply * world :=
  match chain with
  | BackendApplier _ => backend c w
  | quotaApplierV3 _ inner => run inner c w
  | authApplierV3 _ inner _ => run inner c w
  | applierV3Capped inner =>
      if mutates c then (fail (ErrOther "no space"), w) else run inner c w
  | applierV3Corrupt inner =>
      if is_alarm c then run inner c w else (fail (ErrOther "corrupt"), w)
  end.

Definition run_internal (_ : applierV3Internal) (_ : icall) (w : world)
  : world :=
  {| w_alarms := w_alarms w;
     w_applied := w_applied w;
     w_cluster := S (w_cluster w) |}.

#[export] Instance app : Appliers :=
  {| applierV3_invoke := run;
     applierV3Internal_invoke := run_internal;
     applierV3_WrapApply := fun _ ctx r g f => f ctx r g |}.

Definition srv : EtcdServer :=
  {| lg := tt; alarmStore := tt; Cfg_WarningApplyDuration := 100000000%Z;
     authStore := tt; lessor := tt |}.

Definition quiet : world :=
  {| w_alarms := []; w_applied := 0; w_cluster := 0 |}.

(** The registry with an out-of-space alarm of member 1. *)
Definition full : world :=
  {| w_alarms := [{| am_MemberID := 1%N; am_Alarm := AlarmType_NOSPACE |}];
     w_applied := 0; w_cluster := 0 |}.

Definition put_request : InternalRaftRequest :=
  with_Put "k=v" request_zero.

Definition version_request : InternalRaftRequest :=
  with_ClusterVersionSet "3.6.0" request_zero.

Definition stale_compaction : InternalRaftRequest :=
  with_Compaction "stale" request_zero.

Definition status_request : InternalRaftRequest :=
  with_AuthStatus "" request_zero.

Definition activate_corrupt : AlarmRequest :=
  {| Action := AlarmRequest_ACTIVATE; MemberID := 1%N;
     Pb.Alarm := AlarmType_CORRUPT |}.

Definition alarm_request : InternalRaftRequest :=
  with_Alarm activate_corrupt request_zero.

(** The applier as the constructor leaves it, without alarms and with the
    out-of-space alarm. *)
Definition boot : machine := newUberApplier srv quiet.

Definition boot_full : machine := newUberApplier srv full.

(** [boot_full] once the corruption alarm has been activated. *)
Definition locked : machine := snd (dispatch tt alarm_request true boot_full).

End Demo.

(** ** Vocabulary of the properties *)

Section Vocabulary.

Context `{App : Appliers}.

(** An alarm of kind [t] is raised in the registry [a] reads. *)
Definition alarm_active (a : uberApplier) (w : World) (t : AlarmType) : bool :=
  (0 <? List.length (alarmStore_Get (ua_alarmStore a) w t))%nat.

(** The fixed base: Authorization around Quota around Backend. *)
Definition base_chain (srv : EtcdServer) : applierV3 :=
  authApplierV3 (authStore srv)
    (quotaApplierV3 srv (BackendApplier {| s := srv |}))
    (lessor srv).

(** The actions after which the chain is rebuilt. *)
Definition rebuilds (x : AlarmAction) : bool :=
  match x with
  | AlarmRequest_ACTIVATE | AlarmRequest_DEACTIVATE => true
  | AlarmRequest_GET => false
  end.

Definition is_set {A} (x : option A) : bool :=
  match x with Some _ => true | None => false end.

(** One of the three cluster-control variants is set. *)
Definition cluster_control (r : InternalRaftRequest) : bool :=
  is_set (ClusterVersionSet r) || is_set (ClusterMemberAttrSet r)
  || is_set (DowngradeInfoSet r).

(** One of the data-plane or auth-plane variants is set. *)
Definition plane_variant_set (r : InternalRaftRequest) : bool :=
  is_set (Range r) || is_set (Put r) || is_set (DeleteRange r)
  || is_set (Txn r) || is_set (Compaction r) || is_set (LeaseGrant r)
  || is_set (LeaseRevoke r) || is_set (LeaseCheckpoint r)
  || is_set (Alarm_ r) || is_set (Authenticate r) || is_set (AuthEnable r)
  || is_set (AuthDisable r) || is_set (AuthStatus r)
  || is_set (AuthUserAdd r) || is_set (AuthUserDelete r)
  || is_set (AuthUserChangePassword r) || is_set (AuthUserGrantRole r)
  || is_set (AuthUserGet r) || is_set (AuthUserRevokeRole r)
  || is_set (AuthRoleAdd r) || is_set (AuthRoleGrantPermission r)
  || is_set (AuthRoleGet r) || is_set (AuthRoleRevokePermission r)
  || is_set (AuthRoleDelete r) || is_set (AuthUserList r)
  || is_set (AuthRoleList r).

(** No recognized variant is set. *)
Definition no_variant_set (r : InternalRaftRequest) : bool :=
  negb (cluster_control r) && negb (plane_variant_set r).

(** The command is an alarm activation or deactivation. *)
Definition alarm_change (r : InternalRaftRequest) : bool :=
  match Alarm_ r with
  | Some q => rebuilds (Action q)
  | None => false
  end.

(** The error and the response of the outcome handed to the caller; a
    nil outcome and a panic carry neither. *)
Definition returned_err (ex : exit (option applyResult)) : option error :=
  match ex with
  | Return (Some x) => err x
  | _ => None
  end.

Definition returned_resp (ex : exit (option applyResult)) : option Message :=
  match ex with
  | Return (Some x) => resp x
  | _ => None
  end.

(** Classes of events. *)
Definition is_observe (e : event) : bool :=
  match e with EvObserve _ _ _ => true | _ => false end.

Definition is_failed_warning (e : event) : bool :=
  match e with EvWarnOfFailedRequest _ _ _ _ => true | _ => false end.

Definition is_call (e : event) : bool :=
  match e with EvChain _ _ | EvInternal _ _ => true | _ => false end.

Definition is_chain_call (e : event) : bool :=
  match e with EvChain _ _ => true | _ => false end.

(** The events of the deferred closure, for the receiver [a], the request
    [r] and an outcome with response [rsp] and error [e], under the
    label [o]. *)
Definition instrumentation (a : uberApplier) (r : InternalRaftRequest)
    (o : string) (rsp : option Message) (e : option error) : list event :=
  [EvObserve v3Version o (strconv_FormatBool (success_of e));
   EvWarnOfExpensiveRequest (ua_lg a) (warningApplyDuration a) r rsp e]
  ++ (if success_of e then []
      else [EvWarnOfFailedRequest (ua_lg a) r rsp e]).

(** The operation name of a command, in the words of the spec: the name of
    its variant (of the first one set, in the order the dispatcher looks
    at them). *)
Definition operation_name (r : InternalRaftRequest) : string :=
  if is_set (ClusterVersionSet r) then "ClusterVersionSet"
  else if is_set (ClusterMemberAttrSet r) then "ClusterMemberAttrSet"
  else if is_set (DowngradeInfoSet r) then "DowngradeInfoSet"
  else if is_set (Range r) then "Range"
  else if is_set (Put r) then "Put"
  else if is_set (DeleteRange r) then "DeleteRange"
  else if is_set (Txn r) then "Txn"
  else if is_set (Compaction r) then "Compaction"
  else if is_set (LeaseGrant r) then "LeaseGrant"
  else if is_set (LeaseRevoke r) then "LeaseRevoke"
  else if is_set (LeaseCheckpoint r) then "LeaseCheckpoint"
  else if is_set (Alarm_ r) then "Alarm"
  else if is_set (Authenticate r) then "Authenticate"
  else if is_set (AuthEnable r) then "AuthEnable"
  else if is_set (AuthDisable r) then "AuthDisable"
  else if is_set (AuthStatus r) then "AuthStatus"
  else if is_set (AuthUserAdd r) then "AuthUserAdd"
  else if is_set (AuthUserDelete r) then "AuthUserDelete"
  else if is_set (AuthUserChangePassword r) then "AuthUserChangePassword"
  else if is_set (AuthUserGrantRole r) then "AuthUserGrantRole"
  else if is_set (AuthUserGet r) then "AuthUserGet"
  else if is_set (AuthUserRevokeRole r) then "AuthUserRevokeRole"
  else if is_set (AuthRoleAdd r) then "AuthRoleAdd"
  else if is_set (AuthRoleGrantPermission r) then "AuthRoleGrantPermission"
  else if is_set (AuthRoleGet r) then "AuthRoleGet"
  else if is_set (AuthRoleRevokePermission r)
       then "AuthRoleRevokePermission"
  else if is_set (AuthRoleDelete r) then "AuthRoleDelete"
  else if is_set (AuthUserList r) then "AuthUserList"
  else if is_set (AuthRoleList r) then "AuthRoleList"
  else "unknown".

(** The layers of a chain, outermost first. *)
Inductive layer :=
| Corruption | SpaceLockdown | Authorization | Quota | Backend.

Fixpoint layers (c : applierV3) : list layer :=
  match c with
  | BackendApplier _ => [Backend]
  | quotaApplierV3 _ inner => Quota :: layers inner
  | authApplierV3 _ inner _ => Authorization :: layers inner
  | applierV3Capped inner => SpaceLockdown :: layers inner
  | applierV3Corrupt inner => Corruption :: layers inner
  end.

(** The active chain the spec prescribes over [base], by alarm state. *)
Definition active_chain_for (base : applierV3) (noSpace corrupt : bool)
  : applierV3 :=
  match noSpace, corrupt with
  | false, false => base
  | true, false => applierV3Capped base
  | false, true => applierV3Corrupt base
  | true, true => applierV3Corrupt (applierV3Capped base)
  end.

(** The reply of the active chain to the call [c], and the machine once the
    call is over. *)
Definition answer (m : machine) (c : call) : reply :=
  fst (invoke (applyV3 (m_ua m)) c m).

Definition called (m : machine) (c : call) : machine :=
  snd (invoke (applyV3 (m_ua m)) c m).

(** The fields of the receiver that only the constructor writes. *)
Definition fixed_fields (a : uberApplier)
  : Logger * AlarmStore * Duration * applierV3 * applierV3Internal :=
  (ua_lg a, ua_alarmStore a, warningApplyDuration a, applyV3base a,
   applyV3Internal a).

(** The label the code puts on the observation: the local [op] when
    [dispatch] leaves. *)
Definition observed_op (ctx : context_Context) (r : InternalRaftRequest)
    (shouldApplyV3 : bool) (m : machine) : string :=
  op (fst (fst (dispatch_body ctx r shouldApplyV3 m))).

(** Replacing the world: what the other subsystems of the server do
    between two applies. *)
Definition set_world (m : machine) (w : World) : machine :=
  {| m_ua := m_ua m; m_world := w; m_log := m_log m |}.

(** The states an [uberApplier] of the server [srv] goes through. *)
Inductive reachable (srv : EtcdServer) : machine -> Prop :=
| reach_new : forall w, reachable srv (newUberApplier srv w)
| reach_dispatch : forall m ctx r g,
    reachable srv m -> reachable srv (snd (dispatch ctx r g m))
| reach_Alarm : forall m q,
    reachable srv m -> reachable srv (snd (Alarm q m))
| reach_RestoreAlarms : forall m,
    reachable srv m -> reachable srv (snd (RestoreAlarms m))
| reach_world : forall m w,
    reachable srv m -> reachable srv (set_world m w).

End Vocabulary.

(** ** Vocabulary of the further properties *)

Section Vocabulary2.

Context `{App : Appliers}.

Definition is_expensive_warning (e : event) : bool :=
  match e with EvWarnOfExpensiveRequest _ _ _ _ _ => true | _ => false end.

Definition is_panic_log (e : event) : bool :=
  match e with EvLogPanic _ _ _ => true | _ => false end.

(** The events the body of [dispatch] can add: calls and the panic entry. *)
Definition is_body_event (e : event) : bool :=
  is_call e || is_panic_log e.

(** The call is an alarm activation or deactivation. *)
Definition alarm_call (c : call) : bool :=
  match c with
  | Call_Alarm q => rebuilds (Action q)
  | _ => false
  end.

(** The active chain is the one [RestoreAlarms] would build for the alarms
    raised in the current world. *)
Definition in_sync (m : machine) : Prop :=
  applyV3 (m_ua m) =
  active_chain_for (applyV3base (m_ua m))
    (alarm_active (m_ua m) (m_world m) AlarmType_NOSPACE)
    (alarm_active (m_ua m) (m_world m) AlarmType_CORRUPT).

(** One committed command, as [dispatch] receives it. *)
Record command :=
  { cmd_ctx : context_Context;
    cmd_request : InternalRaftRequest;
    cmd_shouldApplyV3 : bool }.

(** The commands of a log, dispatched in order. *)
Definition dispatch_all (cs : list command) (m : machine) : machine :=
  fold_left
    (fun m' c =>
       snd (dispatch (cmd_ctx c) (cmd_request c) (cmd_shouldApplyV3 c) m'))
    cs m.

(** The variants whose case assigns [ar.trace], and the one whose case
    assigns [ar.physc]. *)
Definition assigns_trace (r : InternalRaftRequest) : bool :=
  String.eqb (operation_name r) "Put"
  || String.eqb (operation_name r) "Txn"
  || String.eqb (operation_name r) "Compaction".

Definition assigns_physc (r : InternalRaftRequest) : bool :=
  String.eqb (operation_name r) "Compaction".

End Vocabulary2.

(** ** Properties *)

Create HintDb go discriminated.
#[export] Hint Unfold bind ret this store_applyV3 emit invoke invoke_internal
  alarmStore_get return_ar case2 case3 case4 case_alarm case_internal
  not_implemented
  deferred set_op set_resp_err set_resp_trace_err set_resp_physc_trace_err
  : go.

#[global] Arguments RestoreAlarms : simpl never.
#[global] Arguments Alarm : simpl never.

Ltac go := autounfold with go; cbn.

Ltac request_cases r :=
  destruct r; unfold dispatch_body, dispatch_switch; cbn in *;
  repeat match goal with
         | |- context [match ?x with Some _ => _ | None => _ end] =>
             is_var x; destruct x; cbn in *
         end.

Ltac split_if :=
  match goal with
  | |- context [if ?b then _ else _] => destruct b eqn:?
  end.

Section Properties.

Context `{App : Appliers}.

(** *** The chain builder *)

Lemma RestoreAlarms_eq (m : machine) :
  RestoreAlarms m =
  (tt, {| m_ua :=
            set_applyV3 (m_ua m)
              (active_chain_for (applyV3base (m_ua m))
                 (alarm_active (m_ua m) (m_world m) AlarmType_NOSPACE)
                 (alarm_active (m_ua m) (m_world m) AlarmType_CORRUPT));
          m_world := m_world m;
          m_log := m_log m |}).
Proof.
  unfold RestoreAlarms, alarm_active, active_chain_for; go.
  do 2 split_if; reflexivity.
Qed.

Lemma Alarm_eq (q : AlarmRequest) (m : machine) :
  Alarm q m =
  ((reply_resp (answer m (Call_Alarm q)), reply_err (answer m (Call_Alarm q))),
   if rebuilds (Action q)
   then snd (RestoreAlarms (called m (Call_Alarm q)))
   else called m (Call_Alarm q)).
Proof.
  unfold Alarm, answer, called; go.
  destruct (Action q); cbn; try reflexivity;
    match goal with
    | |- context [RestoreAlarms ?x] => destruct (RestoreAlarms x) as [[] ?]
    end; reflexivity.
Qed.

Lemma RestoreAlarms_fixed_fields (m : machine) :
  fixed_fields (m_ua (snd (RestoreAlarms m))) = fixed_fields (m_ua m).
Proof. rewrite RestoreAlarms_eq. reflexivity. Qed.

Lemma Alarm_fixed_fields (q : AlarmRequest) (m : machine) :
  fixed_fields (m_ua (snd (Alarm q m))) = fixed_fields (m_ua m).
Proof.
  rewrite Alarm_eq; cbn.
  destruct (rebuilds (Action q)); [rewrite RestoreAlarms_fixed_fields|];
    reflexivity.
Qed.

Lemma layers_active_chain_for (base : applierV3) (ns cr : bool) :
  layers (active_chain_for base ns cr) =
  (if cr then [Corruption] else []) ++
  (if ns then [SpaceLockdown] else []) ++ layers base.
Proof. destruct ns, cr; reflexivity. Qed.

(** C7.  Restoring twice in a row is restoring once: the first call leaves
    the world (the alarm registry with it) as it was, and the second call
    ends in the same machine, so the active chain is the same composition
    and answers every call alike. *)
Theorem RestoreAlarms_idempotent (m : machine) :
  m_world (snd (RestoreAlarms m)) = m_world m
  /\ snd (RestoreAlarms (snd (RestoreAlarms m))) = snd (RestoreAlarms m)
  /\ forall c w,
       applierV3_invoke
         (applyV3 (m_ua (snd (RestoreAlarms (snd (RestoreAlarms m)))))) c w =
       applierV3_invoke (applyV3 (m_ua (snd (RestoreAlarms m)))) c w.
Proof.
  assert (H : snd (RestoreAlarms (snd (RestoreAlarms m))) =
              snd (RestoreAlarms m))
    by (rewrite !RestoreAlarms_eq; reflexivity).
  split; [rewrite RestoreAlarms_eq; reflexivity|].
  split; [exact H|]. intros c w. rewrite H. reflexivity.
Qed.

(** C3.  [Alarm] hands the request to the chain that is active when it is
    called and returns the response and the error of that call untouched;
    after the call, on the world the call leaves, it restores the chain
    when the action is an activation or a deactivation and not for a query,
    whatever the error of the call: the active chain is then the base
    wrapped for the alarms raised after the call. *)
Theorem Alarm_delegates_then_restores (q : AlarmRequest) (m : machine) :
  let out := applierV3_invoke (applyV3 (m_ua m)) (Call_Alarm q) (m_world m) in
  let m1 :=
    {| m_ua := m_ua m;
       m_world := snd out;
       m_log := m_log m ++ [EvChain (applyV3 (m_ua m)) (Call_Alarm q)] |} in
  fst (Alarm q m) = (reply_resp (fst out), reply_err (fst out))
  /\ snd (Alarm q m) =
     (if rebuilds (Action q) then snd (RestoreAlarms m1) else m1)
  /\ applyV3 (m_ua (snd (Alarm q m))) =
     (if rebuilds (Action q)
      then active_chain_for (applyV3base (m_ua m))
             (alarm_active (m_ua m) (snd out) AlarmType_NOSPACE)
             (alarm_active (m_ua m) (snd out) AlarmType_CORRUPT)
      else applyV3 (m_ua m))
  /\ m_world (snd (Alarm q m)) = snd out
  /\ m_log (snd (Alarm q m)) =
     m_log m ++ [EvChain (applyV3 (m_ua m)) (Call_Alarm q)].
Proof.
  intros out m1. rewrite Alarm_eq. unfold answer, called, invoke. cbn.
  fold out. fold m1.
  split; [reflexivity|]. split; [reflexivity|].
  destruct (rebuilds (Action q)); [rewrite RestoreAlarms_eq|];
    repeat split; reflexivity.
Qed.

(** *** The dispatcher *)

Lemma dispatch_eq ctx r g m :
  dispatch ctx r g m =
  (snd (fst (dispatch_body ctx r g m)),
   let m1 := snd (dispatch_body ctx r g m) in
   let f := fst (fst (dispatch_body ctx r g m)) in
   {| m_ua := m_ua m1;
      m_world := m_world m1;
      m_log := m_log m1 ++
               instrumentation (m_ua m1) r (op f)
                 (resp (ar f)) (err (ar f)) |}).
Proof.
  unfold dispatch, instrumentation; go.
  destruct (dispatch_body ctx r g m) as [[f ex] m1]; cbn.
  destruct (success_of (err (ar f))); cbn; repeat rewrite <- app_assoc;
    reflexivity.
Qed.

Lemma dispatch_body_shape ctx r g m :
  exists evs,
    fixed_fields (m_ua (snd (dispatch_body ctx r g m))) = fixed_fields (m_ua m)
    /\ m_log (snd (dispatch_body ctx r g m)) = m_log m ++ evs
    /\ filter is_observe evs = []
    /\ filter is_failed_warning evs = []
    /\ returned_err (snd (fst (dispatch_body ctx r g m))) =
       err (ar (fst (fst (dispatch_body ctx r g m))))
    /\ returned_resp (snd (fst (dispatch_body ctx r g m))) =
       resp (ar (fst (fst (dispatch_body ctx r g m)))).
Proof.
  request_cases r; destruct g; go;
    try rewrite Alarm_eq; try split_if; try rewrite RestoreAlarms_eq; cbn;
    unfold called; go;
    first [ exists []; rewrite app_nil_r; repeat split; reflexivity
          | eexists; repeat split; reflexivity ].
Qed.

Lemma dispatch_fixed_fields ctx r g m :
  fixed_fields (m_ua (snd (dispatch ctx r g m))) = fixed_fields (m_ua m).
Proof.
  rewrite dispatch_eq; cbn.
  destruct (dispatch_body_shape ctx r g m) as (evs & H & _); exact H.
Qed.

Lemma dispatch_observes_once ctx r g m :
  exists evs,
    m_log (snd (dispatch ctx r g m)) = m_log m ++ evs
    /\ filter is_observe evs =
       [EvObserve v3Version (observed_op ctx r g m)
          (strconv_FormatBool
             (success_of (returned_err (fst (dispatch ctx r g m)))))]
    /\ filter is_failed_warning evs =
       if success_of (returned_err (fst (dispatch ctx r g m))) then []
       else [EvWarnOfFailedRequest (ua_lg (m_ua m)) r
               (returned_resp (fst (dispatch ctx r g m)))
               (returned_err (fst (dispatch ctx r g m)))].
Proof.
  rewrite dispatch_eq; cbn; unfold observed_op.
  destruct (dispatch_body_shape ctx r g m)
    as (evs & Hfix & Hlog & Hobs & Hwarn & Herr & Hresp).
  rewrite Herr, Hresp, Hlog.
  assert (Hlg : ua_lg (m_ua (snd (dispatch_body ctx r g m))) = ua_lg (m_ua m))
    by (unfold fixed_fields in Hfix; congruence).
  eexists; split; [rewrite <- app_assoc; reflexivity|].
  unfold instrumentation; rewrite !filter_app, Hobs, Hwarn, Hlg; cbn.
  destruct (success_of _); split; reflexivity.
Qed.

(** C1.  A command with a cluster-control variant set goes to the internal
    applier, whatever the gate flag and whatever the state (active chain and
    alarms included): the method of the first such variant is called with
    the flag, the world is the one that call leaves, the only call in the
    log is that call (no method of the chain), and the outcome carries
    neither response nor error. *)
Theorem cluster_control_always_executes ctx r g m :
  cluster_control r = true ->
  exists o c,
    ((exists q, ClusterVersionSet r = Some q
                /\ c = ICall_ClusterVersionSet q g
                /\ o = "ClusterVersionSet")
     \/ (exists q, ClusterVersionSet r = None
                   /\ ClusterMemberAttrSet r = Some q
                   /\ c = ICall_ClusterMemberAttrSet q g
                   /\ o = "ClusterMemberAttrSet")
     \/ (exists q, ClusterVersionSet r = None
                   /\ ClusterMemberAttrSet r = None
                   /\ DowngradeInfoSet r = Some q
                   /\ c = ICall_DowngradeInfoSet q g
                   /\ o = "DowngradeInfoSet"))
    /\ dispatch ctx r g m =
       (Return (Some {| resp := None; err := None;
                        physc := None; trace := None |}),
        {| m_ua := m_ua m;
           m_world :=
             applierV3Internal_invoke (applyV3Internal (m_ua m)) c (m_world m);
           m_log :=
             m_log m ++
             EvInternal (applyV3Internal (m_ua m)) c
             :: instrumentation (m_ua m) r o None None |}).
Proof.
  intros H. rewrite dispatch_eq.
  request_cases r; try discriminate H; go; do 2 eexists;
    (split; [|rewrite <- app_assoc; reflexivity]); eauto 10.
Qed.

(** The dispatcher with the gate closed, on a command that is not
    cluster-control. *)
Lemma dispatch_gate_closed ctx r m :
  cluster_control r = false ->
  dispatch ctx r false m =
  (Return None,
   {| m_ua := m_ua m;
      m_world := m_world m;
      m_log := m_log m ++ instrumentation (m_ua m) r "unknown" None None |}).
Proof.
  intros H. rewrite dispatch_eq.
  unfold dispatch_body, cluster_control in *.
  destruct (ClusterVersionSet r), (ClusterMemberAttrSet r),
    (DowngradeInfoSet r); try discriminate H.
  reflexivity.
Qed.

(** C6.  With the gate flag false, a command that is not cluster-control
    gets the nil outcome; the receiver and the world are untouched and the
    events added hold no call, neither of the chain (hence of the backend)
    nor of the internal applier. *)
Theorem gate_closed_not_applied ctx r m :
  cluster_control r = false ->
  fst (dispatch ctx r false m) = Return None
  /\ m_ua (snd (dispatch ctx r false m)) = m_ua m
  /\ m_world (snd (dispatch ctx r false m)) = m_world m
  /\ exists evs,
       m_log (snd (dispatch ctx r false m)) = m_log m ++ evs
       /\ filter is_call evs = [].
Proof.
  intros H. rewrite (dispatch_gate_closed ctx r m H); cbn.
  repeat split. eexists; split; reflexivity.
Qed.

(** C10.  With the gate flag false, a command that is not cluster-control
    still has its observation emitted, under the labels "unknown" and
    "true", although the world is left as it was and the outcome is nil. *)
Theorem gate_closed_still_observed ctx r m :
  cluster_control r = false ->
  exists evs,
    m_log (snd (dispatch ctx r false m)) = m_log m ++ evs
    /\ filter is_observe evs = [EvObserve v3Version "unknown" "true"]
    /\ fst (dispatch ctx r false m) = Return None
    /\ m_world (snd (dispatch ctx r false m)) = m_world m.
Proof.
  intros H. rewrite (dispatch_gate_closed ctx r m H); cbn.
  eexists; repeat split; reflexivity.
Qed.

(** C5, as the code has it.  A command with no recognized variant set reaches
    the panic of the default case when the gate flag is true (the deferred
    closure still runs, under the label "unknown"); when the gate flag is
    false the dispatcher returns the nil outcome before the second switch and
    does not panic. *)
Theorem unrecognized_panics_when_gate_open ctx r m :
  no_variant_set r = true ->
  dispatch ctx r true m =
  (Panic "not implemented apply",
   {| m_ua := m_ua m;
      m_world := m_world m;
      m_log :=
        m_log m ++
        EvLogPanic (ua_lg (m_ua m)) "not implemented apply" r
        :: instrumentation (m_ua m) r "unknown" None None |})
  /\ fst (dispatch ctx r false m) = Return None.
Proof.
  intros H. split.
  - rewrite dispatch_eq. unfold no_variant_set in H.
    request_cases r; try discriminate H.
    go. rewrite <- app_assoc. reflexivity.
  - rewrite dispatch_gate_closed; [reflexivity|].
    unfold no_variant_set in H.
    destruct (cluster_control r); [discriminate H|reflexivity].
Qed.

Lemma success_of_spec (e : option error) :
  success_of e = true <-> e = None \/ e = Some ErrCompacted.
Proof.
  unfold success_of, err_is_nil, err_is.
  destruct e as [[|name]|]; cbn; split; intros H; auto;
    try discriminate H; destruct H as [H|H]; discriminate H.
Qed.

(** The dispatcher on a command in which only the compaction is set. *)
Lemma dispatch_compaction ctx q m :
  dispatch ctx (with_Compaction q request_zero) true m =
  (let rp := answer m (Call_Compaction q) in
   let m1 := called m (Call_Compaction q) in
   (Return (Some {| resp := reply_resp rp; err := reply_err rp;
                    physc := reply_physc rp; trace := reply_trace rp |}),
    {| m_ua := m_ua m;
       m_world := m_world m1;
       m_log :=
         m_log m1 ++
         instrumentation (m_ua m) (with_Compaction q request_zero)
           "Compaction" (reply_resp rp) (reply_err rp) |})).
Proof.
  rewrite dispatch_eq. reflexivity.
Qed.

(** C4.  Whatever the command, the gate flag and the state: the events the
    dispatcher adds hold one observation, whose success label is "true"
    exactly when the error of the outcome is absent or is [ErrCompacted];
    they hold a failed-request warning exactly when that classification is
    a failure; and for a compaction command the error the chain replies
    with, [ErrCompacted] included, is the error of the outcome. *)
Theorem outcome_classification ctx r g m :
  (exists evs o,
     m_log (snd (dispatch ctx r g m)) = m_log m ++ evs
     /\ filter is_observe evs =
        [EvObserve v3Version o
           (strconv_FormatBool
              (success_of (returned_err (fst (dispatch ctx r g m)))))]
     /\ filter is_failed_warning evs =
        if success_of (returned_err (fst (dispatch ctx r g m))) then []
        else [EvWarnOfFailedRequest (ua_lg (m_ua m)) r
                (returned_resp (fst (dispatch ctx r g m)))
                (returned_err (fst (dispatch ctx r g m)))])
  /\ (forall e, success_of e = true <-> e = None \/ e = Some ErrCompacted)
  /\ (forall q,
        returned_err
          (fst (dispatch ctx (with_Compaction q request_zero) true m)) =
        reply_err
          (fst (applierV3_invoke (applyV3 (m_ua m)) (Call_Compaction q)
                  (m_world m))))
  /\ success_of (Some ErrCompacted) = true.
Proof.
  split; [|split; [|split]].
  - destruct (dispatch_observes_once ctx r g m) as (evs & H1 & H2 & H3).
    exists evs, (observed_op ctx r g m); auto.
  - exact success_of_spec.
  - intros q. rewrite dispatch_compaction. reflexivity.
  - reflexivity.
Qed.

(** The label of the observation, variant by variant: the operation name
    of the command, except that the case of [AuthStatus] leaves the initial
    "unknown", as does the early return of a closed gate. *)
Lemma observed_op_spec ctx r g m :
  observed_op ctx r g m =
  if cluster_control r || g
  then if String.eqb (operation_name r) "AuthStatus" then "unknown"
       else operation_name r
  else "unknown".
Proof.
  unfold observed_op, cluster_control, operation_name.
  request_cases r; destruct g; go; try rewrite Alarm_eq; reflexivity.
Qed.

(** C8, at the command in which only [AuthStatus] is set, gate open: the
    chain's [AuthStatus] is called and one observation is emitted, labelled
    "unknown" and not with the operation name "AuthStatus". *)
Theorem AuthStatus_observed_as_unknown ctx q m :
  operation_name (with_AuthStatus q request_zero) = "AuthStatus"
  /\ exists evs,
       m_log (snd (dispatch ctx (with_AuthStatus q request_zero) true m)) =
       m_log m ++ EvChain (applyV3 (m_ua m)) Call_AuthStatus :: evs
       /\ filter is_observe evs =
          [EvObserve v3Version "unknown"
             (strconv_FormatBool
                (success_of (reply_err (answer m Call_AuthStatus))))]
       /\ "unknown" <> "AuthStatus".
Proof.
  split; [reflexivity|].
  rewrite dispatch_eq. go. eexists. split.
  - rewrite <- app_assoc. reflexivity.
  - unfold instrumentation, answer; go.
    split; [destruct (success_of _); reflexivity | discriminate].
Qed.

(** Only the alarm case, on an activation or a deactivation, writes the
    receiver. *)
Lemma dispatch_keeps_receiver ctx r g m :
  alarm_change r = false ->
  m_ua (snd (dispatch ctx r g m)) = m_ua m.
Proof.
  intros H. rewrite dispatch_eq. unfold alarm_change in H.
  request_cases r; destruct g; go; try reflexivity.
  rewrite Alarm_eq, H. reflexivity.
Qed.

(** C9.  A command that is no alarm activation or deactivation leaves the
    receiver as it was: the active chain, the base chain and the internal
    applier (and every other field) are the same after as before. *)
Theorem only_alarm_change_replaces_chain ctx r g m :
  alarm_change r = false ->
  applyV3 (m_ua (snd (dispatch ctx r g m))) = applyV3 (m_ua m)
  /\ applyV3base (m_ua (snd (dispatch ctx r g m))) = applyV3base (m_ua m)
  /\ applyV3Internal (m_ua (snd (dispatch ctx r g m))) =
     applyV3Internal (m_ua m)
  /\ m_ua (snd (dispatch ctx r g m)) = m_ua m.
Proof.
  intros H. rewrite (dispatch_keeps_receiver ctx r g m H). auto.
Qed.

(** *** Reachable states *)

Lemma newUberApplier_eq (srv : EtcdServer) (w : World) :
  newUberApplier srv w =
  {| m_ua :=
       {| ua_lg := lg srv;
          ua_alarmStore := alarmStore srv;
          warningApplyDuration := Cfg_WarningApplyDuration srv;
          applyV3 :=
            active_chain_for (base_chain srv)
              (0 <? List.length (alarmStore_Get (alarmStore srv) w
                                   AlarmType_NOSPACE))%nat
              (0 <? List.length (alarmStore_Get (alarmStore srv) w
                                   AlarmType_CORRUPT))%nat;
          applyV3base := base_chain srv;
          applyV3Internal := InternalApplier {| s := srv |} |};
     m_world := w;
     m_log := [] |}.
Proof. unfold newUberApplier. rewrite RestoreAlarms_eq. reflexivity. Qed.

Lemma reachable_fixed_fields (srv : EtcdServer) (m : machine) :
  reachable srv m ->
  fixed_fields (m_ua m) =
  (lg srv, alarmStore srv, Cfg_WarningApplyDuration srv, base_chain srv,
   InternalApplier {| s := srv |}).
Proof.
  induction 1 as [w|m ctx r g _ IH|m q _ IH|m _ IH|m w _ IH].
  - rewrite newUberApplier_eq. reflexivity.
  - rewrite dispatch_fixed_fields. exact IH.
  - rewrite Alarm_fixed_fields. exact IH.
  - rewrite RestoreAlarms_fixed_fields. exact IH.
  - exact IH.
Qed.

Lemma dispatch_active_chain ctx r g m :
  applyV3 (m_ua (snd (dispatch ctx r g m))) = applyV3 (m_ua m)
  \/ exists ns cr,
       applyV3 (m_ua (snd (dispatch ctx r g m))) =
       active_chain_for (applyV3base (m_ua m)) ns cr.
Proof.
  rewrite dispatch_eq.
  request_cases r; destruct g; go; try (left; reflexivity).
  rewrite Alarm_eq. destruct (rebuilds _); [right|left; reflexivity].
  rewrite RestoreAlarms_eq. cbn. eauto.
Qed.

(** The active chain is, in every reachable state, one of the four
    compositions over the base. *)
Lemma reachable_active_chain (srv : EtcdServer) (m : machine) :
  reachable srv m ->
  exists ns cr, applyV3 (m_ua m) = active_chain_for (base_chain srv) ns cr.
Proof.
  intros R. pose proof (reachable_fixed_fields R) as F.
  induction R as [w|m ctx r g R IH|m q R IH|m R IH|m w R IH].
  - rewrite newUberApplier_eq. cbn. eauto.
  - pose proof (reachable_fixed_fields R) as F'.
    assert (Hb : applyV3base (m_ua m) = base_chain srv)
      by (unfold fixed_fields in F'; congruence).
    destruct (dispatch_active_chain ctx r g m) as [E|(ns & cr & E)];
      rewrite E; [auto|rewrite Hb; eauto].
  - pose proof (reachable_fixed_fields R) as F'.
    assert (Hb : applyV3base (m_ua m) = base_chain srv)
      by (unfold fixed_fields in F'; congruence).
    rewrite Alarm_eq; cbn. destruct (rebuilds _); [|auto].
    rewrite RestoreAlarms_eq; cbn. rewrite Hb. eauto.
  - pose proof (reachable_fixed_fields R) as F'.
    assert (Hb : applyV3base (m_ua m) = base_chain srv)
      by (unfold fixed_fields in F'; congruence).
    rewrite RestoreAlarms_eq; cbn. rewrite Hb. eauto.
  - apply IH. exact F.
Qed.

(** C2.  In every state the applier reaches, [RestoreAlarms] leaves as
    active chain the base, Authorization around Quota around Backend of the
    server, wrapped by the space lockdown exactly when an out-of-space alarm
    is raised and by the corruption lockdown exactly when a corruption alarm
    is raised, corruption outermost; and so does the constructor. *)
Theorem RestoreAlarms_builds_chain (srv : EtcdServer) (m : machine)
    (w : World) :
  reachable srv m ->
  let ns := alarm_active (m_ua m) (m_world m) AlarmType_NOSPACE in
  let cr := alarm_active (m_ua m) (m_world m) AlarmType_CORRUPT in
  applyV3 (m_ua (snd (RestoreAlarms m))) =
    active_chain_for (base_chain srv) ns cr
  /\ layers (applyV3 (m_ua (snd (RestoreAlarms m)))) =
     (if cr then [Corruption] else []) ++
     (if ns then [SpaceLockdown] else []) ++
     [Authorization; Quota; Backend]
  /\ applyV3 (m_ua (newUberApplier srv w)) =
     active_chain_for (base_chain srv)
       (alarm_active (m_ua (newUberApplier srv w)) w AlarmType_NOSPACE)
       (alarm_active (m_ua (newUberApplier srv w)) w AlarmType_CORRUPT).
Proof.
  intros H ns cr.
  assert (Hb : applyV3base (m_ua m) = base_chain srv)
    by (apply reachable_fixed_fields in H; unfold fixed_fields in H;
        congruence).
  assert (E : applyV3 (m_ua (snd (RestoreAlarms m))) =
              active_chain_for (base_chain srv) ns cr)
    by (rewrite RestoreAlarms_eq; cbn; rewrite Hb; reflexivity).
  split; [exact E|]. split.
  - rewrite E, layers_active_chain_for. reflexivity.
  - rewrite newUberApplier_eq. reflexivity.
Qed.

End Properties.

(** *** From [dispatch] to [Apply]

    [Apply] hands [dispatch] to the [WrapApply] of the active chain.  The
    wrappers are in sibling files; what is asked of them here is that they
    reach the receiver only through the apply function they are given, run
    on the request they were given. *)
Section ApplyFrame.

Context `{App : Appliers}.

Hypothesis WrapApply_frame :
  forall c ctx r g (f : applyFunc) m,
    (forall ctx' g' m', m_ua (snd (f ctx' r g' m')) = m_ua m') ->
    m_ua (snd (applierV3_WrapApply c ctx r g f m)) = m_ua m.

(** X12.  Under that condition on the wrappers, [Apply] on a command that is
    no alarm activation or deactivation leaves the receiver as it was. *)
Lemma Apply_keeps_receiver r g m :
  alarm_change r = false ->
  m_ua (snd (Apply r g m)) = m_ua m.
Proof.
  intros H. unfold Apply; go.
  apply WrapApply_frame. intros ctx' g' m'.
  apply dispatch_keeps_receiver. exact H.
Qed.

End ApplyFrame.

(** ** Further properties of the dispatcher *)

Ltac by_success :=
  try match goal with
      | |- context [success_of ?e] => destruct (success_of e)
      end.

Ltac alarm_case :=
  try rewrite Alarm_eq; try split_if; try rewrite RestoreAlarms_eq;
  unfold called, answer; go.

Section Dispatcher.

Context `{App : Appliers}.

(** X1. How [dispatch] leaves, by command and gate flag: the nil outcome
    exactly when the gate is closed on a command that is not
    cluster-control; a panic exactly when the gate is open on a command with
    no variant set; an outcome in every other case. *)
Theorem dispatch_exit_classification ctx r g m :
  (fst (dispatch ctx r g m) = Return None <->
     cluster_control r = false /\ g = false)
  /\ ((exists msg, fst (dispatch ctx r g m) = Panic msg) <->
        g = true /\ no_variant_set r = true)
  /\ ((exists x, fst (dispatch ctx r g m) = Return (Some x)) <->
        cluster_control r = true
        \/ (g = true /\ plane_variant_set r = true)).
Proof.
  rewrite dispatch_eq. unfold no_variant_set, cluster_control,
    plane_variant_set.
  request_cases r; destruct g; go; try rewrite Alarm_eq; cbn;
    (split; [|split]); split;
    try solve [ intros H; discriminate H
              | intros [? H]; discriminate H
              | intros [H ?]; discriminate H
              | intros [H|[H ?]]; discriminate H
              | intros [H|[? H]]; discriminate H
              | intros; auto; eauto ].
Qed.

Lemma dispatch_log_shape ctx r g m :
  exists body,
    m_log (snd (dispatch ctx r g m)) =
    m_log m ++ body ++
    instrumentation (m_ua m) r (observed_op ctx r g m)
      (returned_resp (fst (dispatch ctx r g m)))
      (returned_err (fst (dispatch ctx r g m)))
    /\ forallb is_body_event body = true
    /\ (List.length body <= 1)%nat.
Proof.
  rewrite dispatch_eq. unfold observed_op.
  request_cases r; destruct g; go; alarm_case;
    first [ exists []; split; [reflexivity|];
            split; [reflexivity|apply Nat.le_0_l]
          | eexists; split; [rewrite <- app_assoc; reflexivity|];
            split; [reflexivity|apply Nat.le_refl] ].
Qed.

(** X2. Whatever the way [dispatch] leaves (outcome, nil outcome or panic),
    the events it adds are at most one event of its body, a call or the
    panic entry, followed by those of the deferred closure: the observation,
    then the one call of [warnOfExpensiveRequest] with the logger and
    threshold of the receiver, the request, and the response and error of
    the outcome. *)
Theorem instrumentation_closes_dispatch ctx r g m :
  exists body o,
    m_log (snd (dispatch ctx r g m)) =
    m_log m ++ body ++
    instrumentation (m_ua m) r o
      (returned_resp (fst (dispatch ctx r g m)))
      (returned_err (fst (dispatch ctx r g m)))
    /\ forallb is_body_event body = true
    /\ (List.length body <= 1)%nat
    /\ filter is_expensive_warning
         (body ++
          instrumentation (m_ua m) r o
            (returned_resp (fst (dispatch ctx r g m)))
            (returned_err (fst (dispatch ctx r g m)))) =
       [EvWarnOfExpensiveRequest (ua_lg (m_ua m))
          (warningApplyDuration (m_ua m)) r
          (returned_resp (fst (dispatch ctx r g m)))
          (returned_err (fst (dispatch ctx r g m)))].
Proof.
  destruct (dispatch_log_shape ctx r g m) as (body & E & B & L).
  exists body, (observed_op ctx r g m). repeat split; try assumption.
  rewrite filter_app.
  assert (F : filter is_expensive_warning body = []).
  { clear E L. induction body as [|e body IH]; [reflexivity|].
    cbn in B. apply andb_prop in B. destruct B as [Be B].
    destruct e; try discriminate Be; cbn; auto. }
  rewrite F. unfold instrumentation. cbn.
  destruct (success_of _); reflexivity.
Qed.

(** X3. [dispatch] makes one call, of the internal applier or of the chain,
    when the command is cluster-control or when the gate is open on a
    command with a data-plane or auth-plane variant; otherwise it makes
    none. The chain is called only in the second case. *)
Theorem dispatch_calls_once ctx r g m :
  exists evs,
    m_log (snd (dispatch ctx r g m)) = m_log m ++ evs
    /\ List.length (filter is_call evs) =
       (if cluster_control r || (g && plane_variant_set r) then 1 else 0)%nat
    /\ List.length (filter is_chain_call evs) =
       (if negb (cluster_control r) && g && plane_variant_set r
        then 1 else 0)%nat.
Proof.
  rewrite dispatch_eq.
  unfold cluster_control, plane_variant_set, instrumentation.
  request_cases r; destruct g; go; alarm_case;
    (eexists; split; [try rewrite <- app_assoc; reflexivity|]);
    cbn; by_success; split; reflexivity.
Qed.

(** X4. With the gate open, a command that is not cluster-control and has a
    data-plane or auth-plane variant set is answered by one call of the
    chain that is active when [dispatch] starts; the outcome carries the
    response and the error of that call as they are, and the world is the
    one the call leaves. *)
Theorem dispatch_returns_chain_reply ctx r m :
  cluster_control r = false ->
  plane_variant_set r = true ->
  exists c x evs,
    fst (dispatch ctx r true m) = Return (Some x)
    /\ resp x =
       reply_resp (fst (applierV3_invoke (applyV3 (m_ua m)) c (m_world m)))
    /\ err x =
       reply_err (fst (applierV3_invoke (applyV3 (m_ua m)) c (m_world m)))
    /\ m_world (snd (dispatch ctx r true m)) =
       snd (applierV3_invoke (applyV3 (m_ua m)) c (m_world m))
    /\ m_log (snd (dispatch ctx r true m)) =
       m_log m ++ EvChain (applyV3 (m_ua m)) c :: evs
    /\ filter is_call evs = [].
Proof.
  intros Hc Hp. rewrite dispatch_eq.
  unfold cluster_control, plane_variant_set, instrumentation in *.
  request_cases r; try discriminate Hc; try discriminate Hp; go; alarm_case;
    do 3 eexists;
    (split; [reflexivity|]); cbn;
    (split; [reflexivity|]); (split; [reflexivity|]);
    (split; [reflexivity|]);
    (split; [rewrite <- app_assoc; reflexivity|]);
    cbn; by_success; reflexivity.
Qed.

(** X5. The outcome carries a completion signal only for a compaction, and a
    trace only for a put, a transaction or a compaction: the other cases
    leave both as the empty result has them. *)
Theorem dispatch_trace_and_physc ctx r g m x :
  fst (dispatch ctx r g m) = Return (Some x) ->
  (assigns_physc r = false -> physc x = None)
  /\ (assigns_trace r = false -> trace x = None).
Proof.
  rewrite dispatch_eq.
  unfold assigns_physc, assigns_trace, operation_name, cluster_control.
  request_cases r; destruct g; go; try rewrite Alarm_eq; cbn;
    intros H; inversion H; subst; cbn;
    repeat split; intros E; try discriminate E; reflexivity.
Qed.

(** X6. With the gate open or on a cluster-control command, the observation
    is labelled with the operation name of the command (and "unknown" when
    no variant is set), for every variant but [AuthStatus]. *)
Theorem observation_label ctx r g m :
  cluster_control r || g = true ->
  operation_name r <> "AuthStatus" ->
  exists evs,
    m_log (snd (dispatch ctx r g m)) = m_log m ++ evs
    /\ filter is_observe evs =
       [EvObserve v3Version (operation_name r)
          (strconv_FormatBool
             (success_of (returned_err (fst (dispatch ctx r g m)))))].
Proof.
  intros Hg Hn.
  destruct (dispatch_observes_once ctx r g m) as (evs & E & O & _).
  exists evs. split; [exact E|]. rewrite O, observed_op_spec, Hg.
  destruct (String.eqb_spec (operation_name r) "AuthStatus") as [e|_];
    [contradiction|reflexivity].
Qed.

End Dispatcher.

(** ** Further properties of the chain builder *)

Section ChainBuilder.

Context `{App : Appliers}.

Lemma set_applyV3_same (a : uberApplier) : set_applyV3 a (applyV3 a) = a.
Proof. destruct a; reflexivity. Qed.

(** X7. [RestoreAlarms] always ends in a state whose active chain matches
    the alarms raised, and the states it leaves as they are are exactly
    those whose chain already matches. *)
Theorem RestoreAlarms_fixpoint (m : machine) :
  in_sync (snd (RestoreAlarms m))
  /\ (in_sync m <-> snd (RestoreAlarms m) = m).
Proof.
  rewrite RestoreAlarms_eq. unfold in_sync. cbn. split; [reflexivity|].
  split.
  - intros H. rewrite <- H, set_applyV3_same. destruct m; reflexivity.
  - intros H. apply (f_equal (fun x => applyV3 (m_ua x))) in H.
    cbn in H. symmetry. exact H.
Qed.

(** X8. Every state the applier reaches keeps what the constructor put in
    the receiver: the logger, the alarm registry and the threshold of the
    server, the base chain [newApplierV3] built and the internal applier
    [newApplierV3Internal] built. *)
Theorem reachable_keeps_construction (srv : EtcdServer) (m : machine) :
  reachable srv m ->
  ua_lg (m_ua m) = lg srv
  /\ ua_alarmStore (m_ua m) = alarmStore srv
  /\ warningApplyDuration (m_ua m) = Cfg_WarningApplyDuration srv
  /\ applyV3base (m_ua m) = newApplierV3 srv
  /\ applyV3Internal (m_ua m) = newApplierV3Internal srv.
Proof.
  intros R. apply reachable_fixed_fields in R. unfold fixed_fields in R.
  inversion R as [[H1 H2 H3 H4 H5]]. repeat split; assumption.
Qed.

(** X9. In every state the applier reaches the lockdown decorators are never
    stacked: the active chain is the base under at most one space lockdown
    and at most one corruption lockdown, the latter outermost. *)
Theorem reachable_chain_never_stacks (srv : EtcdServer) (m : machine) :
  reachable srv m ->
  exists ns cr : bool,
    layers (applyV3 (m_ua m)) =
    (if cr then [Corruption] else []) ++
    (if ns then [SpaceLockdown] else []) ++
    [Authorization; Quota; Backend]
    /\ (List.length (layers (applyV3 (m_ua m))) <= 5)%nat.
Proof.
  intros R. destruct (reachable_active_chain R) as (ns & cr & E).
  exists ns, cr. rewrite E, layers_active_chain_for.
  split; [reflexivity|]. destruct ns, cr; cbn; repeat constructor.
Qed.

(** X10. With the gate open, once [dispatch] has served a command whose case
    is the alarm case with an activation or a deactivation, the active chain
    matches the alarms raised in the world the command leaves. *)
Theorem dispatch_alarm_change_in_sync ctx r m :
  cluster_control r = false ->
  operation_name r = "Alarm" ->
  alarm_change r = true ->
  in_sync (snd (dispatch ctx r true m)).
Proof.
  intros Hc Hn Ha. rewrite dispatch_eq.
  unfold cluster_control, operation_name, alarm_change, in_sync in *.
  request_cases r; try discriminate Hc; try discriminate Hn; go.
  rewrite Alarm_eq, Ha, RestoreAlarms_eq. reflexivity.
Qed.

End ChainBuilder.

(** *** The chain follows the alarms

    The alarm registry is written by the backend when it serves an alarm
    activation or deactivation.  When no other call of the chain and no call
    of the internal applier changes what the registry lists, the active
    chain matches the alarms raised after every command. *)
Section InSync.

Context `{App : Appliers}.

Hypothesis chain_keeps_alarms :
  forall st chain c w t,
    alarm_call c = false ->
    alarmStore_Get st (snd (applierV3_invoke chain c w)) t =
    alarmStore_Get st w t.

Hypothesis internal_keeps_alarms :
  forall st recv c w t,
    alarmStore_Get st (applierV3Internal_invoke recv c w) t =
    alarmStore_Get st w t.

Lemma dispatch_preserves_sync ctx r g m :
  in_sync m -> in_sync (snd (dispatch ctx r g m)).
Proof.
  intros H. rewrite dispatch_eq. unfold in_sync, alarm_active in *.
  request_cases r; destruct g; go;
    try (rewrite !internal_keeps_alarms; exact H);
    try (rewrite !chain_keeps_alarms by reflexivity; exact H);
    try exact H.
  rewrite Alarm_eq. destruct (rebuilds (Action a)) eqn:E.
  - rewrite RestoreAlarms_eq. reflexivity.
  - unfold called; go. rewrite !chain_keeps_alarms by exact E. exact H.
Qed.

(** X11. Provided no call of the chain other than an alarm activation or
    deactivation, and no call of the internal applier, changes what the
    alarm registry lists: from construction on, whatever commands are
    dispatched, the active chain matches the alarms raised. *)
Theorem applier_stays_in_sync (srv : EtcdServer) (w : World)
    (cs : list command) :
  in_sync (dispatch_all cs (newUberApplier srv w)).
Proof.
  assert (H0 : in_sync (newUberApplier srv w))
    by (rewrite newUberApplier_eq; reflexivity).
  generalize dependent (newUberApplier srv w).
  induction cs as [|c cs IH]; intros m H; [exact H|].
  cbn. apply IH. apply dispatch_preserves_sync. exact H.
Qed.

End InSync.

(** ** The properties on the in-memory server *)

#[local] Existing Instance Demo.ext.
#[local] Existing Instance Demo.app.

Example put_is_applied :
  fst (dispatch tt Demo.put_request true Demo.boot) =
    Return (Some {| resp := Some "done"; err := None;
                    physc := None; trace := None |})
  /\ filter is_observe
       (m_log (snd (dispatch tt Demo.put_request true Demo.boot)))
     = [EvObserve "v3" "Put" "true"].
Proof. split; reflexivity. Qed.

Example put_is_rejected_when_full :
  returned_err (fst (dispatch tt Demo.put_request true Demo.boot_full)) =
    Some (ErrOther "no space")
  /\ filter is_observe
       (m_log (snd (dispatch tt Demo.put_request true Demo.boot_full)))
     = [EvObserve "v3" "Put" "false"]
  /\ List.length
       (filter is_failed_warning
          (m_log (snd (dispatch tt Demo.put_request true Demo.boot_full))))
     = 1.
Proof. repeat split; reflexivity. Qed.

Example stale_compaction_counts_as_success :
  returned_err (fst (dispatch tt Demo.stale_compaction true Demo.boot)) =
    Some ErrCompacted
  /\ m_log (snd (dispatch tt Demo.stale_compaction true Demo.boot)) =
     [EvChain (base_chain Demo.srv) (Call_Compaction "stale");
      EvObserve "v3" "Compaction" "true";
      EvWarnOfExpensiveRequest tt 100000000%Z Demo.stale_compaction None
        (Some ErrCompacted)].
Proof. split; reflexivity. Qed.

Example alarm_activation_replaces_chain :
  alarm_change Demo.alarm_request = true
  /\ layers (applyV3 (m_ua Demo.boot_full)) =
     [SpaceLockdown; Authorization; Quota; Backend]
  /\ layers (applyV3 (m_ua Demo.locked)) =
     [Corruption; SpaceLockdown; Authorization; Quota; Backend].
Proof. repeat split; reflexivity. Qed.

Example status_is_labelled_unknown :
  m_log (snd (dispatch tt Demo.status_request true Demo.boot)) =
  [EvChain (base_chain Demo.srv) Call_AuthStatus;
   EvObserve "v3" "unknown" "true";
   EvWarnOfExpensiveRequest tt 100000000%Z Demo.status_request (Some "done")
     None].
Proof. reflexivity. Qed.

(** C1 on the locked server, gate closed: the version is still set. *)
Lemma cluster_control_always_executes_witness :
  cluster_control Demo.version_request = true
  /\ fst (dispatch tt Demo.version_request false Demo.locked) =
       Return (Some applyResult_zero)
  /\ Demo.w_cluster
       (m_world (snd (dispatch tt Demo.version_request false Demo.locked))) = 1
  /\ filter is_chain_call
       (m_log (snd (dispatch tt Demo.version_request false Demo.locked))) =
     filter is_chain_call (m_log Demo.locked).
Proof.
  split; [reflexivity|].
  destruct (cluster_control_always_executes (App := Demo.app) tt
              Demo.version_request false Demo.locked eq_refl)
    as (o & c & _ & E).
  rewrite E. repeat split; reflexivity.
Defined.

(** C2 on the locked server. *)
Lemma RestoreAlarms_builds_chain_witness :
  reachable Demo.srv Demo.locked
  /\ (applyV3 (m_ua (snd (RestoreAlarms Demo.locked))) =
        active_chain_for (base_chain Demo.srv) true true
      /\ layers (applyV3 (m_ua (snd (RestoreAlarms Demo.locked)))) =
         [Corruption; SpaceLockdown; Authorization; Quota; Backend]
      /\ applyV3 (m_ua (newUberApplier Demo.srv Demo.full)) =
         active_chain_for (base_chain Demo.srv) true false).
Proof.
  assert (R : reachable Demo.srv Demo.locked)
    by (apply reach_dispatch, reach_new).
  split; [exact R|].
  exact (RestoreAlarms_builds_chain (App := Demo.app) Demo.full R).
Defined.

(** C5: with the gate closed the empty command comes back with the nil
    outcome; the dispatcher does not panic. *)
Lemma unrecognized_gate_closed_no_panic :
  no_variant_set request_zero = true
  /\ fst (dispatch tt request_zero false Demo.boot) = Return None
  /\ ~ (forall g : bool,
          exists msg, fst (dispatch tt request_zero g Demo.boot) = Panic msg).
Proof.
  split; [reflexivity|]. split; [reflexivity|].
  intros H. destruct (H false) as [msg E]. discriminate E.
Qed.

Lemma unrecognized_panics_when_gate_open_witness :
  no_variant_set request_zero = true
  /\ (dispatch tt request_zero true Demo.boot =
        (Panic "not implemented apply",
         {| m_ua := m_ua Demo.boot;
            m_world := m_world Demo.boot;
            m_log :=
              m_log Demo.boot ++
              EvLogPanic (ua_lg (m_ua Demo.boot)) "not implemented apply"
                request_zero
              :: instrumentation (m_ua Demo.boot) request_zero "unknown"
                   None None |})
      /\ fst (dispatch tt request_zero false Demo.boot) = Return None).
Proof.
  split; [reflexivity|].
  apply (unrecognized_panics_when_gate_open (App := Demo.app) tt request_zero
           Demo.boot).
  reflexivity.
Defined.

Lemma gate_closed_not_applied_witness :
  cluster_control Demo.put_request = false
  /\ (fst (dispatch tt Demo.put_request false Demo.boot) = Return None
      /\ m_ua (snd (dispatch tt Demo.put_request false Demo.boot)) =
         m_ua Demo.boot
      /\ m_world (snd (dispatch tt Demo.put_request false Demo.boot)) =
         m_world Demo.boot
      /\ exists evs,
           m_log (snd (dispatch tt Demo.put_request false Demo.boot)) =
           m_log Demo.boot ++ evs
           /\ filter is_call evs = []).
Proof.
  split; [reflexivity|].
  apply (gate_closed_not_applied (App := Demo.app) tt Demo.put_request
           Demo.boot).
  reflexivity.
Defined.

Lemma gate_closed_still_observed_witness :
  cluster_control Demo.stale_compaction = false
  /\ exists evs,
       m_log (snd (dispatch tt Demo.stale_compaction false Demo.boot)) =
       m_log Demo.boot ++ evs
       /\ filter is_observe evs = [EvObserve "v3" "unknown" "true"]
       /\ fst (dispatch tt Demo.stale_compaction false Demo.boot) = Return None
       /\ m_world (snd (dispatch tt Demo.stale_compaction false Demo.boot)) =
          m_world Demo.boot.
Proof.
  split; [reflexivity|].
  apply (gate_closed_still_observed (App := Demo.app) tt
           Demo.stale_compaction Demo.boot).
  reflexivity.
Defined.

Lemma only_alarm_change_replaces_chain_witness :
  alarm_change Demo.put_request = false
  /\ (applyV3 (m_ua (snd (dispatch tt Demo.put_request true Demo.boot_full))) =
        applyV3 (m_ua Demo.boot_full)
      /\ applyV3base
           (m_ua (snd (dispatch tt Demo.put_request true Demo.boot_full))) =
         applyV3base (m_ua Demo.boot_full)
      /\ applyV3Internal
           (m_ua (snd (dispatch tt Demo.put_request true Demo.boot_full))) =
         applyV3Internal (m_ua Demo.boot_full)
      /\ m_ua (snd (dispatch tt Demo.put_request true Demo.boot_full)) =
         m_ua Demo.boot_full).
Proof.
  split; [reflexivity|].
  apply (only_alarm_change_replaces_chain (App := Demo.app) tt
           Demo.put_request true Demo.boot_full).
  reflexivity.
Defined.

Lemma Apply_keeps_receiver_witness :
  alarm_change Demo.put_request = false
  /\ m_ua (snd (Apply Demo.put_request true Demo.boot_full)) =
     m_ua Demo.boot_full.
Proof.
  split; [reflexivity|].
  apply (Apply_keeps_receiver (App := Demo.app)); [|reflexivity].
  intros c ctx r g f m H. apply H.
Defined.

(** *** The further properties on the in-memory server *)

Example lockdown_follows_the_alarm :
  returned_err
    (fst (dispatch tt Demo.put_request true
            (dispatch_all
               [{| cmd_ctx := tt; cmd_request := Demo.alarm_request;
                   cmd_shouldApplyV3 := true |}]
               Demo.boot))) = Some (ErrOther "corrupt")
  /\ returned_err (fst (dispatch tt Demo.put_request true Demo.boot)) = None.
Proof. split; reflexivity. Qed.

Lemma dispatch_returns_chain_reply_witness :
  cluster_control Demo.put_request = false
  /\ plane_variant_set Demo.put_request = true
  /\ exists c x evs,
       fst (dispatch tt Demo.put_request true Demo.boot_full) =
         Return (Some x)
       /\ resp x =
          reply_resp
            (fst (Demo.run (applyV3 (m_ua Demo.boot_full)) c
                    (m_world Demo.boot_full)))
       /\ err x =
          reply_err
            (fst (Demo.run (applyV3 (m_ua Demo.boot_full)) c
                    (m_world Demo.boot_full)))
       /\ m_world (snd (dispatch tt Demo.put_request true Demo.boot_full)) =
          snd (Demo.run (applyV3 (m_ua Demo.boot_full)) c
                 (m_world Demo.boot_full))
       /\ m_log (snd (dispatch tt Demo.put_request true Demo.boot_full)) =
          m_log Demo.boot_full ++
          EvChain (applyV3 (m_ua Demo.boot_full)) c :: evs
       /\ filter is_call evs = [].
Proof.
  split; [reflexivity|]. split; [reflexivity|].
  apply (dispatch_returns_chain_reply (App := Demo.app) tt Demo.put_request
           Demo.boot_full); reflexivity.
Defined.

Lemma dispatch_trace_and_physc_witness :
  fst (dispatch tt Demo.put_request true Demo.boot) =
    Return (Some {| resp := Some "done"; err := None;
                    physc := None; trace := None |})
  /\ ((assigns_physc Demo.put_request = false ->
        physc {| resp := Some "done"; err := None;
                 physc := None; trace := None |} = None)
      /\ (assigns_trace Demo.put_request = false ->
          trace {| resp := Some "done"; err := None;
                   physc := None; trace := None |} = None)).
Proof.
  split; [reflexivity|].
  apply (dispatch_trace_and_physc (App := Demo.app) tt Demo.put_request true
           Demo.boot).
  reflexivity.
Defined.

Lemma observation_label_witness :
  cluster_control Demo.stale_compaction || true = true
  /\ operation_name Demo.stale_compaction <> "AuthStatus"
  /\ exists evs,
       m_log (snd (dispatch tt Demo.stale_compaction true Demo.boot)) =
       m_log Demo.boot ++ evs
       /\ filter is_observe evs =
          [EvObserve "v3" (operation_name Demo.stale_compaction)
             (strconv_FormatBool
                (success_of
                   (returned_err
                      (fst (dispatch tt Demo.stale_compaction true
                              Demo.boot)))))].
Proof.
  split; [reflexivity|]. split; [discriminate|].
  apply (observation_label (App := Demo.app) tt Demo.stale_compaction true
           Demo.boot); [reflexivity|discriminate].
Defined.

Lemma reachable_keeps_construction_witness :
  reachable Demo.srv Demo.locked
  /\ (ua_lg (m_ua Demo.locked) = lg Demo.srv
      /\ ua_alarmStore (m_ua Demo.locked) = alarmStore Demo.srv
      /\ warningApplyDuration (m_ua Demo.locked) =
         Cfg_WarningApplyDuration Demo.srv
      /\ applyV3base (m_ua Demo.locked) = newApplierV3 Demo.srv
      /\ applyV3Internal (m_ua Demo.locked) =
         newApplierV3Internal Demo.srv).
Proof.
  assert (R : reachable Demo.srv Demo.locked)
    by (apply reach_dispatch, reach_new).
  split; [exact R|].
  exact (reachable_keeps_construction (App := Demo.app) R).
Defined.

Lemma reachable_chain_never_stacks_witness :
  reachable Demo.srv Demo.locked
  /\ exists ns cr : bool,
       layers (applyV3 (m_ua Demo.locked)) =
       (if cr then [Corruption] else []) ++
       (if ns then [SpaceLockdown] else []) ++
       [Authorization; Quota; Backend]
       /\ (List.length (layers (applyV3 (m_ua Demo.locked))) <= 5)%nat.
Proof.
  assert (R : reachable Demo.srv Demo.locked)
    by (apply reach_dispatch, reach_new).
  split; [exact R|].
  exact (reachable_chain_never_stacks (App := Demo.app) R).
Defined.

Lemma dispatch_alarm_change_in_sync_witness :
  cluster_control Demo.alarm_request = false
  /\ operation_name Demo.alarm_request = "Alarm"
  /\ alarm_change Demo.alarm_request = true
  /\ in_sync (snd (dispatch tt Demo.alarm_request true Demo.boot_full)).
Proof.
  repeat (split; [reflexivity|]).
  apply (dispatch_alarm_change_in_sync (App := Demo.app) tt
           Demo.alarm_request Demo.boot_full); reflexivity.
Defined.

(** The chain of the in-memory server leaves the registry alone, except
    when the backend serves an alarm activation or deactivation. *)
Lemma Demo_run_keeps_alarms chain c w :
  alarm_call c = false ->
  Demo.w_alarms (snd (Demo.run chain c w)) = Demo.w_alarms w.
Proof.
  intros H. induction chain as [b|srv inner IH|st inner IH l|inner IH|inner IH];
    cbn.
  - destruct c; cbn in *; try reflexivity.
    + split_if; reflexivity.
    + unfold Demo.backend_alarm.
      match goal with
      | |- context [Action ?q] => destruct (Action q)
      end; try discriminate H; reflexivity.
  - exact IH.
  - exact IH.
  - destruct (Demo.mutates c); [reflexivity|exact IH].
  - destruct (Demo.is_alarm c); [exact IH|reflexivity].
Qed.

Lemma applier_stays_in_sync_witness :
  (forall st chain c w t,
      alarm_call c = false ->
      alarmStore_Get st (snd (applierV3_invoke chain c w)) t =
      alarmStore_Get st w t)
  /\ (forall st recv c w t,
        alarmStore_Get st (applierV3Internal_invoke recv c w) t =
        alarmStore_Get st w t)
  /\ in_sync
       (dispatch_all
          [{| cmd_ctx := tt; cmd_request := Demo.put_request;
              cmd_shouldApplyV3 := true |};
           {| cmd_ctx := tt; cmd_request := Demo.alarm_request;
              cmd_shouldApplyV3 := true |};
           {| cmd_ctx := tt; cmd_request := Demo.version_request;
              cmd_shouldApplyV3 := false |}]
          (newUberApplier Demo.srv Demo.full)).
Proof.
  assert (H1 : forall st chain c w t,
             alarm_call c = false ->
             alarmStore_Get st (snd (applierV3_invoke chain c w)) t =
             alarmStore_Get st w t).
  { intros st chain c w t H. cbn.
    rewrite (Demo_run_keeps_alarms chain c w H). reflexivity. }
  assert (H2 : forall st recv c w t,
             alarmStore_Get st (applierV3Internal_invoke recv c w) t =
             alarmStore_Get st w t)
    by reflexivity.
  split; [exact H1|]. split; [exact H2|].
  exact (applier_stays_in_sync (App := Demo.app) H1 H2 Demo.srv Demo.full _).
Defined.
